(** * webdavfs: a PyFilesystem2 adapter over a WebDAV client

    Shallow embedding of [webdavfs/webdavfs.py]: the remote-backed file
    handle [WebDAVFile] (an [io.BytesIO] buffer plus a cursor of its own) and
    the parts of the adapter [WebDAVFS] that open files and normalise
    metadata.

    Conventions.
    - Python 3 semantics ([six.PY2] is false, [six.u] is the identity).
    - Python integers are [Z]; [bytes] are [list byte]; [str] is [string].
    - A Python method that mutates [self] and may raise is a computation in
      the monad [Py S A := S -> outcome A * S]: the state reached is kept
      also when an exception is raised.
    - Paths are the canonical absolute paths that [FS.validatepath] accepts;
      [validatepath] and [abspath (normpath _)] are the identity on them and
      the WebDAV client addresses a resource by such a path.
    - The WebDAV client ([webdav2]) is an external collaborator.  The server
      is a finite map from paths to nodes; a download writes the whole
      content into the sink, an upload reads the source to its end and
      replaces the content.  A download fails on an absent resource and on
      a collection; an upload does not fail.  The machine-word limits of
      [io.BytesIO] are not modelled. *)

From Stdlib Require Import ZArith Lia Bool List.
From Stdlib Require Import Strings.Ascii Strings.Byte Numbers.DecimalString.
From stdpp Require Import base option list gmap strings.

Local Open Scope Z_scope.

(** ** Exceptions and the state-and-exception monad *)

Inductive exn : Type :=
| IOError (msg : string)          (* builtin *)
| ValueError (msg : string)       (* builtin *)
| KeyError (key : string)         (* builtin *)
| AttributeError (name : string)  (* builtin *)
| RemoteResourceNotFound          (* webdav2.exceptions *)
| TransportError                  (* any other failure of the client *)
| ResourceNotFound (path : string)   (* fs.errors *)
| FileExpected (path : string)       (* fs.errors *)
| FileExists (path : string)         (* fs.errors *)
| RemoteParentNotFound               (* webdav2.exceptions *)
| DirectoryExpected (path : string)  (* fs.errors *)
| DirectoryExists (path : string)    (* fs.errors *)
| DirectoryNotEmpty (path : string)  (* fs.errors *)
| RemoveRootError                    (* fs.errors *)
| DestinationExists (path : string). (* fs.errors *)

Inductive outcome (A : Type) : Type :=
| Return (a : A)
| Raise (e : exn).
Arguments Return {A} a.
Arguments Raise {A} e.

Definition Py (S A : Type) : Type := S -> outcome A * S.

Definition ret {S A} (a : A) : Py S A := fun s => (Return a, s).

Definition raise {S A} (e : exn) : Py S A := fun s => (Raise e, s).

Definition bind {S A B} (m : Py S A) (k : A -> Py S B) : Py S B :=
  fun s =>
    match m s with
    | (Return a, s') => k a s'
    | (Raise e, s') => (Raise e, s')
    end.

Definition gets {S A} (f : S -> A) : Py S A := fun s => (Return (f s), s).

Definition modify {S} (f : S -> S) : Py S unit := fun s => (Return tt, f s).

(** Run a computation on a component of the state. *)
Definition zoom {S T A} (proj : S -> T) (upd : T -> S -> S) (m : Py T A) : Py S A :=
  fun s => let (r, t) := m (proj s) in (r, upd t s).

(** [try: m except E: h]: [handler e] is [Some h] when [e] is caught. *)
Definition try_except {S A} (m : Py S A) (handler : exn -> option (Py S A)) : Py S A :=
  fun s =>
    match m s with
    | (Return a, s') => (Return a, s')
    | (Raise e, s') =>
        match handler e with
        | Some h => h s'
        | None => (Raise e, s')
        end
    end.

(** [try: m except E: h else: k]: [k] runs when [m] returned, outside the
    reach of the handler. *)
Definition try_except_else {S A B} (m : Py S A) (handler : exn -> option (Py S B))
    (orelse : A -> Py S B) : Py S B :=
  fun s =>
    match m s with
    | (Return a, s') => orelse a s'
    | (Raise e, s') =>
        match handler e with
        | Some h => h s'
        | None => (Raise e, s')
        end
    end.

(** A result computed without touching the state. *)
Definition lift {S A} (r : outcome A) : Py S A := fun s => (r, s).

Declare Scope py_scope.
Delimit Scope py_scope with py.
Notation "'let*' x ':=' c 'in' k" := (bind c (fun x => k))
  (at level 10, x name, c at level 100, k at level 200) : py_scope.
Notation "c1 ';;;' c2" := (bind c1 (fun _ => c2))
  (at level 100, c2 at level 200, right associativity) : py_scope.
Local Open Scope py_scope.

(** ** Bytes *)

Abbreviation bytes := (list byte).

Definition len (b : bytes) : Z := Z.of_nat (length b).

(** [b'\0' * n]; a non-positive count gives the empty sequence. *)
Definition zeros (n : Z) : bytes := replicate (Z.to_nat n) x00.

(** ** io.BytesIO *)

Module BytesIO.

Record t : Type := mk {
  buf : bytes;      (* the content, [getvalue()] *)
  pos : nat;        (* the stream position, never negative *)
  closed : bool
}.

Definition new : t := {| buf := []; pos := 0%nat; closed := false |}.

Definition check_closed : Py t unit :=
  fun s => if closed s
           then (Raise (ValueError "I/O operation on closed file."), s)
           else (Return tt, s).

(** [getbuffer().nbytes] *)
Definition nbytes : Py t Z :=
  check_closed ;;; gets (fun s => len (buf s)).

(** [read(size)]: a negative size, or one beyond what is left, reads to
    the end; the position advances by the number of bytes returned. *)
Definition read (size : Z) : Py t bytes :=
  check_closed ;;;
  fun s =>
    let n := len (buf s) - Z.of_nat (pos s) in
    let k := if (size <? 0) || (n <? size) then Z.max n 0 else size in
    (Return (take (Z.to_nat k) (drop (pos s) (buf s))),
     {| buf := buf s; pos := (pos s + Z.to_nat k)%nat; closed := closed s |}).

(** [write(b)]: writes at the position, overwriting what is there and
    extending the buffer where needed; a position beyond the end is first
    padded with zero bytes.  Writing nothing changes nothing. *)
Definition write (b : bytes) : Py t Z :=
  check_closed ;;;
  fun s =>
    match b with
    | [] => (Return 0, s)
    | _ =>
        let padded := buf s ++ replicate (pos s - length (buf s))%nat x00 in
        (Return (len b),
         {| buf := take (pos s) padded ++ b ++ drop (pos s + length b)%nat (buf s);
            pos := (pos s + length b)%nat;
            closed := closed s |})
    end.

(** [seek(p)] with the default [whence = 0]. *)
Definition seek (p : Z) : Py t Z :=
  check_closed ;;;
  if p <? 0 then raise (ValueError "negative seek value")
  else fun s => (Return p, {| buf := buf s; pos := Z.to_nat p; closed := closed s |}).

(** [truncate(size)]: [None] stands for the current position; the buffer
    is cut when it is longer than [size] and never extended; the position
    does not move. *)
Definition truncate (size : option Z) : Py t Z :=
  check_closed ;;;
  fun s =>
    let size := match size with Some n => n | None => Z.of_nat (pos s) end in
    if size <? 0 then (Raise (ValueError "negative size value"), s)
    else if size <? len (buf s)
         then (Return size,
               {| buf := take (Z.to_nat size) (buf s); pos := pos s; closed := closed s |})
         else (Return size, s).

(** [close()] releases the buffer. *)
Definition close : Py t unit :=
  modify (fun s => {| buf := []; pos := pos s; closed := true |}).

End BytesIO.

(** ** fs.mode.Mode

    The facets of a mode string, each a membership test on its characters,
    and the two validations. *)

Module Mode.

Definition has (c : ascii) (m : string) : bool :=
  existsb (Ascii.eqb c) (String.list_ascii_of_string m).

Definition reading (m : string) : bool := has "r" m || has "+" m.
Definition writing (m : string) : bool :=
  has "w" m || has "a" m || has "+" m || has "x" m.
Definition appending (m : string) : bool := has "a" m.
Definition exclusive (m : string) : bool := has "x" m.

Definition validate {S} (m : string) : Py S unit :=
  match m with
  | EmptyString => raise (ValueError "mode must not be empty")
  | String c0 _ =>
      if negb (forallb (fun c => has c "rwxtab+") (String.list_ascii_of_string m))
      then raise (ValueError "mode contains invalid characters")
      else if negb (has c0 "rwxa")
      then raise (ValueError "mode must start with 'r', 'w', 'x', or 'a'")
      else if has "t" m && has "b" m
      then raise (ValueError "mode can't be binary ('b') and text ('t')")
      else ret tt
  end.

Definition validate_bin {S} (m : string) : Py S unit :=
  validate m ;;;
  if has "t" m then raise (ValueError "mode must be binary") else ret tt.

End Mode.

(** ** fs.enums.Seek and io.SEEK_SET *)

Definition Seek_set : Z := 0.
Definition Seek_current : Z := 1.
Definition Seek_end : Z := 2.
Definition io_SEEK_SET : Z := 0.

(** ** The remote server behind the WebDAV client *)

Inductive node : Type :=
| Dir
| File (content : bytes).

Abbreviation remote := (gmap string node).

Module Resource.

(** [write_to(buff)]: download the resource into [buff]. *)
Definition write_to (srv : remote) (urn : string) : Py BytesIO.t unit :=
  match srv !! urn with
  | None => raise RemoteResourceNotFound
  | Some Dir => raise TransportError
  | Some (File content) => BytesIO.write content ;;; ret tt
  end.

(** [read_from(buff)]: upload what [buff] yields from its position to its
    end as the new content of the resource. *)
Definition read_from (urn : string) : Py (BytesIO.t * remote) unit :=
  let* content := zoom fst (fun d s => (d, snd s)) (BytesIO.read (-1)) in
  zoom snd (fun r s => (fst s, r)) (modify (insert urn (File content))).

End Resource.

(** ** class WebDAVFile(io.RawIOBase) *)

Module WebDAVFile.

Record t : Type := mk {
  path : string;
  mode : string;        (* [self.mode]; [self._mode] is [Mode(mode)] *)
  data : BytesIO.t;
  pos : Z;
  closed : bool
}.

Definition set_data (d : BytesIO.t) (self : t) : t :=
  {| path := path self; mode := mode self; data := d;
     pos := pos self; closed := closed self |}.

Definition set_pos (p : Z) (self : t) : t :=
  {| path := path self; mode := mode self; data := data self;
     pos := p; closed := closed self |}.

Definition set_closed (c : bool) (self : t) : t :=
  {| path := path self; mode := mode self; data := data self;
     pos := pos self; closed := c |}.

(** A call on [self.data]. *)
Definition on_data {A} (m : Py BytesIO.t A) : Py t A := zoom data set_data m.

Definition _get_file_data (srv : remote) (urn m : string) : Py BytesIO.t unit :=
  try_except
    (Resource.write_to srv urn ;;;
     if negb (Mode.has "a" m) then BytesIO.seek io_SEEK_SET ;;; ret tt else ret tt)
    (fun e => match e with
              | RemoteResourceNotFound => Some (BytesIO.write [] ;;; ret tt)
              | _ => None
              end).

(** [__init__]: the handle for [path] on the server [srv].  The class
    defines no [_get_data_size], so the append branch raises. *)
Definition __init__ (p m : string) : Py remote t :=
  Mode.validate m ;;;
  fun srv =>
    match _get_file_data srv p m BytesIO.new with
    | (Raise e, _) => (Raise e, srv)
    | (Return _, d) =>
        let self := {| path := p; mode := m; data := d; pos := 0; closed := false |} in
        if Mode.has "a" m
        then (Raise (AttributeError "_get_data_size"), srv)
        else (Return self, srv)
    end.

Definition __length_hint__ : Py t Z := on_data BytesIO.nbytes.

Definition readable : Py t bool := gets (fun self => Mode.reading (mode self)).

Definition read (size : Z) : Py t bytes :=
  let* m := gets mode in
  if negb (Mode.reading m) then raise (IOError "File is not in read mode")
  else
    let* p := if negb (size =? -1)
              then let* p0 := gets pos in ret (p0 + size)
              else __length_hint__ in
    modify (set_pos p) ;;;
    on_data (BytesIO.read size).

Definition seek (offset : Z) (whence : Z) : Py t Z :=
  (if whence =? Seek_set then
     if offset <? 0 then raise (ValueError "Negative seek position")
     else modify (set_pos offset)
   else if whence =? Seek_current then
     let* p0 := gets pos in modify (set_pos (Z.max 0 (p0 + offset)))
   else if whence =? Seek_end then
     if 0 <? offset then raise (ValueError "Positive seek position")
     else let* n := __length_hint__ in modify (set_pos (Z.max 0 (n + offset)))
   else raise (ValueError "invalid value for whence")) ;;;
  let* p := gets pos in
  on_data (BytesIO.seek p) ;;;
  gets pos.

Definition tell : Py t Z := gets pos.

(** [size] is truthy when it is given and not zero. *)
Definition truncate (size : option Z) : Py t Z :=
  on_data (BytesIO.truncate size) ;;;
  let* data_size := __length_hint__ in
  (match size with
   | Some n =>
       if negb (n =? 0) && (data_size <? n)
       then on_data (BytesIO.write (zeros (n - data_size))) ;;; ret tt
       else ret tt
   | None => ret tt
   end) ;;;
  ret (match size with
       | Some n => if n =? 0 then data_size else n
       | None => data_size
       end).

Definition writable : Py t bool := gets (fun self => Mode.writing (mode self)).

Definition write (b : bytes) : Py t Z :=
  let* m := gets mode in
  if negb (Mode.writing m) then raise (IOError "File is not in write mode")
  else
    let* bytes_written := on_data (BytesIO.write b) in
    seek bytes_written Seek_current ;;;
    ret bytes_written.

(** The methods below also reach the server through [self.res]. *)
Definition on_self {A} (m : Py t A) : Py (t * remote) A :=
  zoom fst (fun f s => (f, snd s)) m.

Definition on_res {A} (m : Py (BytesIO.t * remote) A) : Py (t * remote) A :=
  zoom (fun s => (data (fst s), snd s))
       (fun dr s => (set_data (fst dr) (fst s), snd dr)) m.

Definition flush : Py (t * remote) unit :=
  let* m := on_self (gets mode) in
  if Mode.writing m then
    on_self (on_data (BytesIO.seek io_SEEK_SET)) ;;;
    let* urn := on_self (gets path) in
    on_res (Resource.read_from urn)
  else ret tt.

(** [io.IOBase.close], reached through [super().close()]: it calls
    [self.flush()] itself and marks the stream closed, also when the flush
    raised. *)
Definition IOBase_close : Py (t * remote) unit :=
  fun s =>
    let (r, s') := flush s in
    (r, (set_closed true (fst s'), snd s')).

Definition close : Py (t * remote) unit :=
  let* c := on_self (gets closed) in
  if negb c then
    flush ;;;
    IOBase_close ;;;
    on_self (on_data BytesIO.close)
  else ret tt.

End WebDAVFile.

(** ** class WebDAVFS(FS) *)

(** Values stored in an info dictionary. *)
Inductive pyval : Type :=
| PNone
| PBool (v : bool)
| PInt (v : Z)
| PStr (v : string).

(** A raw attribute mapping as the client returns it, in iteration order;
    a value is a string or [None]. *)
Abbreviation raw_info := (list (string * option string)).

(** The dictionary [_create_info_dict] builds: it has the keys ['basic'],
    ['details'] and ['access'], and no other. *)
Record info_dict : Type := mk_info {
  ns_basic : gmap string pyval;
  ns_details : gmap string pyval;
  ns_access : gmap string pyval
}.

Definition basics : gset string := {[ "name" ]}.
Definition details : gset string :=
  {[ "type"; "accessed"; "modified"; "created"; "metadata_changed"; "size" ]}.
Definition access : gset string :=
  {[ "permissions"; "user"; "uid"; "group"; "gid" ]}.

Definition ResourceType_directory : Z := 1.
Definition ResourceType_file : Z := 2.

(** [six.u] on Python 3 returns its argument. *)
Definition six_u (val : option string) : pyval :=
  match val with
  | None => PNone
  | Some s => PStr s
  end.

(** Truth value of a raw attribute: [None] and the empty string are false. *)
Definition truthy (val : option string) : bool :=
  match val with
  | None => false
  | Some s => negb (String.eqb s "")
  end.

(** [Info.is_dir], that is [raw['basic']['is_dir']]. *)
Definition is_dir (info : info_dict) : bool :=
  match ns_basic info !! "is_dir" with
  | Some (PBool v) => v
  | _ => false
  end.

Module WebDAVFS.

Section Collaborators.

(** The builtin [int] on a string: [None] when it raises [ValueError]. *)
Variable py_int : string -> option Z.

(** [client.info]: the attributes the server reports for a node. *)
Variable attributes : string -> node -> raw_info.

(** One round of the loop of [_create_info_dict]. *)
Definition classify (d : info_dict) (item : string * option string)
  : outcome info_dict :=
  let (key, val) := item in
  if bool_decide (key ∈ basics) then
    Return {| ns_basic := <[key := six_u val]> (ns_basic d);
              ns_details := ns_details d;
              ns_access := ns_access d |}
  else if bool_decide (key ∈ details) then
    let stored :=
      if String.eqb key "size" && truthy val then
        match val with
        | Some s =>
            match py_int s with
            | Some n => Return (PInt n)
            | None => Raise (ValueError "invalid literal for int()")
            end
        | None => Return PNone
        end
      else Return (six_u val) in
    match stored with
    | Return v =>
        Return {| ns_basic := ns_basic d;
                  ns_details := <[key := v]> (ns_details d);
                  ns_access := ns_access d |}
    | Raise e => Raise e
    end
  else if bool_decide (key ∈ access) then
    Return {| ns_basic := ns_basic d;
              ns_details := ns_details d;
              ns_access := <[key := six_u val]> (ns_access d) |}
  else
    (* info_dict['other'][key] = ...: the dictionary has no 'other' *)
    Raise (KeyError "other").

Fixpoint classify_all (d : info_dict) (items : raw_info)
  : outcome info_dict :=
  match items with
  | [] => Return d
  | item :: rest =>
      match classify d item with
      | Return d' => classify_all d' rest
      | Raise e => Raise e
      end
  end.

Definition _create_info_dict (info : raw_info) : outcome info_dict :=
  classify_all
    {| ns_basic := {[ "is_dir" := PBool false ]};
       ns_details := {[ "type" := PInt ResourceType_file ]};
       ns_access := ∅ |}
    info.

(** [self.client.info], [self.client.is_dir] and [self.client.check]. *)
Definition client_info (p : string) : Py remote raw_info :=
  fun srv =>
    match srv !! p with
    | None => (Raise RemoteResourceNotFound, srv)
    | Some n => (Return (attributes p n), srv)
    end.

Definition client_is_dir (p : string) : Py remote bool :=
  fun srv =>
    match srv !! p with
    | None => (Raise RemoteResourceNotFound, srv)
    | Some Dir => (Return true, srv)
    | Some (File _) => (Return false, srv)
    end.

Definition client_check (p : string) : Py remote bool :=
  gets (fun srv => match srv !! p with
                   | Some _ => true
                   | None => false
                   end).

Definition isdir (p : string) : Py remote bool :=
  try_except (client_is_dir p)
    (fun e => match e with
              | RemoteResourceNotFound => Some (ret false)
              | _ => None
              end).

Definition exists_ (p : string) : Py remote bool := client_check p.

(** [_path in '/']: a substring test, true of the empty path and ['/']. *)
Definition in_slash (p : string) : bool := String.eqb p "" || String.eqb p "/".

Definition getinfo (p : string) : Py remote info_dict :=
  if in_slash p then
    ret {| ns_basic := {[ "name" := PStr ""; "is_dir" := PBool true ]};
           ns_details := {[ "type" := PInt ResourceType_directory ]};
           ns_access := ∅ |}
  else
    try_except
      (let* info := client_info p in
       let* d := lift (_create_info_dict info) in
       let* dir := isdir p in
       if dir then
         ret {| ns_basic := <["is_dir" := PBool true]> (ns_basic d);
                ns_details := <["type" := PInt ResourceType_directory]> (ns_details d);
                ns_access := ns_access d |}
       else ret d)
      (fun e => match e with
                | RemoteResourceNotFound => Some (raise (ResourceNotFound p))
                | _ => None
                end).

(** The pre-flight checks of [openbin], made under [self._lock]: the test
    of the exclusive flag stands after the whole [try] statement. *)
Definition preflight (p m : string) : Py remote unit :=
  try_except_else (getinfo p)
    (fun e => match e with
              | ResourceNotFound _ =>
                  Some (if Mode.reading m then raise (ResourceNotFound p) else ret tt)
              | _ => None
              end)
    (fun info => if is_dir info then raise (FileExpected p) else ret tt) ;;;
  if Mode.exclusive m then raise (FileExists p) else ret tt.

Definition openbin (p m : string) : Py remote WebDAVFile.t :=
  Mode.validate m ;;;
  Mode.validate_bin m ;;;
  preflight p m ;;;
  WebDAVFile.__init__ p m.

End Collaborators.

(** The sub-filesystem [opendir] returns: [SubFS(self, path)]. *)
Inductive SubFS : Type := mkSubFS (path : string).

(** *** The operations on the tree

    What the client does for a listing, a new collection, a deletion, a
    copy or a move depends on the tree the server keeps; these calls are
    parameters of the adapter. *)

Section Client.

Variable py_int : string -> option Z.
Variable attributes : string -> node -> raw_info.

(** [client.list], [client.mkdir], [client.clean], [client.copy] and
    [client.move]. *)
Variable client_list : string -> Py remote (list string).
Variable client_mkdir : string -> Py remote unit.
Variable client_clean : string -> Py remote unit.
Variable client_copy : string -> string -> Py remote unit.
Variable client_move : string -> string -> bool -> Py remote unit.

Definition listdir (p : string) : Py remote (list string) :=
  let* info := getinfo py_int attributes p in
  if negb (is_dir info) then raise (DirectoryExpected p)
  else client_list p.

(** [fs.base.FS.opendir], which [makedir] returns through. *)
Definition opendir (p : string) : Py remote SubFS :=
  let* info := getinfo py_int attributes p in
  if negb (is_dir info) then raise (DirectoryExpected p)
  else ret (mkSubFS p).

Definition makedir (p : string) (recreate : bool) : Py remote SubFS :=
  (if String.eqb p "/" then
     if negb recreate then raise (DirectoryExists p) else ret tt
   else
     let* dir := if recreate then isdir p else ret false in
     if negb dir then
       let* found := exists_ p in
       if found then raise (DirectoryExists p)
       else
         try_except (client_mkdir p)
           (fun e => match e with
                     | RemoteParentNotFound => Some (raise (ResourceNotFound p))
                     | _ => None
                     end)
     else ret tt) ;;;
  opendir p.

Definition remove (p : string) : Py remote unit :=
  let* found := exists_ p in
  if negb found then raise (ResourceNotFound p)
  else
    let* info := getinfo py_int attributes p in
    if is_dir info then raise (FileExpected p)
    else client_clean p.

Definition removedir (p : string) : Py remote unit :=
  if String.eqb p "/" then raise RemoveRootError
  else
    let* found := exists_ p in
    if negb found then raise (ResourceNotFound p)
    else
      let* dir := isdir p in
      if negb dir then raise (DirectoryExpected p)
      else
        let* checklist := client_list p in
        match checklist with
        | _ :: _ => raise (DirectoryNotEmpty p)
        | [] => client_clean p
        end.

(** [contents] is of type [bytes], so the [isinstance] test passes. *)
Definition setbytes (p : string) (contents : bytes) : Py remote unit :=
  fun srv =>
    let bin_file := {| BytesIO.buf := contents; BytesIO.pos := 0%nat;
                       BytesIO.closed := false |} in
    let (r, s) := Resource.read_from p (bin_file, srv) in
    (r, snd s).

Definition setinfo (p : string) : Py remote unit :=
  let* found := exists_ p in
  if negb found then raise (ResourceNotFound p) else ret tt.

(** [with f as new_file: body]: the handle is closed when the body is
    left, also by an exception, which is then raised again. *)
Definition with_closing {A} (f : WebDAVFile.t) (body : Py (WebDAVFile.t * remote) A)
  : Py remote A :=
  fun srv =>
    let (r, s1) := body (f, srv) in
    let (rc, s2) := WebDAVFile.close s1 in
    (match r, rc with
     | Raise e, _ => Raise e
     | Return _, Raise e => Raise e
     | Return a, Return _ => Return a
     end, snd s2).

(** [self.open(path, 'wb')] of the base class opens the file with
    [openbin] and wraps it in stream objects that hand [truncate] and
    [close] down to it. *)
Definition create (p : string) (wipe : bool) : Py remote bool :=
  let* found := if negb wipe then exists_ p else ret false in
  if found then ret false
  else
    let* new_file := openbin py_int attributes p "wb" in
    with_closing new_file (WebDAVFile.on_self (WebDAVFile.truncate (Some 0))) ;;;
    ret true.

Definition copy (src_path dst_path : string) (overwrite : bool) : Py remote unit :=
  let* found := if negb overwrite then exists_ dst_path else ret false in
  if found then raise (DestinationExists dst_path)
  else
    try_except (client_copy src_path dst_path)
      (fun e => match e with
                | RemoteResourceNotFound => Some (raise (ResourceNotFound src_path))
                | RemoteParentNotFound => Some (raise (ResourceNotFound dst_path))
                | _ => None
                end).

Definition move (src_path dst_path : string) (overwrite : bool) : Py remote unit :=
  let* found := if negb overwrite then exists_ dst_path else ret false in
  if found then raise (DestinationExists dst_path)
  else
    try_except (client_move src_path dst_path overwrite)
      (fun e => match e with
                | RemoteResourceNotFound => Some (raise (ResourceNotFound src_path))
                | RemoteParentNotFound => Some (raise (ResourceNotFound dst_path))
                | _ => None
                end).

End Client.

End WebDAVFS.

(** ** A concrete server for running the model

    It reports a name for every node and the size of a file in decimal;
    [int] is read as a parser of signed decimal numerals. *)

Definition b (s : string) : bytes := String.list_byte_of_string s.

Definition decimal_int (s : string) : option Z :=
  option_map Z.of_int (NilZero.int_of_string s).

Definition dav_attributes (p : string) (n : node) : raw_info :=
  match n with
  | Dir => [("name", Some p); ("size", None)]
  | File content =>
      [("name", Some p);
       ("size", Some (NilZero.string_of_uint (Nat.to_uint (length content))))]
  end.

(** The tree operations of the concrete server.  A path is a child of the
    collection that its text up to the last slash names; a collection can be
    made, and a resource copied or moved to, where the parent is the root or
    a collection the server holds. *)

Fixpoint basename_from (acc s : string) : string :=
  match s with
  | EmptyString => acc
  | String c s' =>
      if Ascii.eqb c "/" then basename_from EmptyString s'
      else basename_from (acc +:+ String c EmptyString) s'
  end.

Definition basename (p : string) : string := basename_from EmptyString p.

Definition dirname (p : string) : string :=
  let n := (String.length p - String.length (basename p) - 1)%nat in
  match n with
  | O => "/"
  | _ => String.substring 0 n p
  end.

Definition has_parent (p : string) (srv : remote) : bool :=
  String.eqb (dirname p) "/" ||
  match srv !! dirname p with
  | Some Dir => true
  | _ => false
  end.

Definition dav_list (p : string) : Py remote (list string) :=
  gets (fun srv =>
          basename <$>
            filter (fun q => dirname q = p /\ q <> "/") (fst <$> map_to_list srv)).

Definition dav_mkdir (p : string) : Py remote unit :=
  fun srv =>
    if has_parent p srv then (Return tt, <[p := Dir]> srv)
    else (Raise RemoteParentNotFound, srv).

Definition dav_clean (p : string) : Py remote unit := modify (delete p).

Definition dav_copy (src dst : string) : Py remote unit :=
  fun srv =>
    match srv !! src with
    | None => (Raise RemoteResourceNotFound, srv)
    | Some n =>
        if has_parent dst srv then (Return tt, <[dst := n]> srv)
        else (Raise RemoteParentNotFound, srv)
    end.

Definition dav_move (src dst : string) (overwrite : bool) : Py remote unit :=
  fun srv =>
    match srv !! src with
    | None => (Raise RemoteResourceNotFound, srv)
    | Some n =>
        if has_parent dst srv then (Return tt, <[dst := n]> (delete src srv))
        else (Raise RemoteParentNotFound, srv)
    end.

(** A server that also reports an entity tag for every resource. *)
Definition etag_attributes (p : string) (n : node) : raw_info :=
  [("name", Some p); ("getetag", Some "5d8c")].

(** A small tree: a file and a collection with one entry. *)
Definition small_tree : remote :=
  {[ "/f.txt" := File (b "abc"); "/d" := Dir; "/d/g" := File [] ]}.

(** What the attributes of the collection ["/d"] of that tree normalise to,
    before [getinfo] marks it as a directory. *)
Definition d_normalised : info_dict :=
  {| ns_basic := <["name" := PStr "/d"]> {[ "is_dir" := PBool false ]};
     ns_details := <["size" := PNone]> {[ "type" := PInt ResourceType_file ]};
     ns_access := ∅ |}.

(** ** Vocabulary for the statements *)

(** The bytes a handle holds. *)
Definition content (self : WebDAVFile.t) : bytes := BytesIO.buf (WebDAVFile.data self).

(** The read/write point of the buffer itself. *)
Definition cursor (self : WebDAVFile.t) : Z := Z.of_nat (BytesIO.pos (WebDAVFile.data self)).

(** The buffer of the handle has not been released. *)
Definition usable (self : WebDAVFile.t) : Prop :=
  BytesIO.closed (WebDAVFile.data self) = false.

(** The position the handle reports is the one the buffer acts at. *)
Definition in_sync (self : WebDAVFile.t) : Prop := cursor self = WebDAVFile.pos self.

(** A raw attribute key that belongs to one of the three namespaces. *)
Definition recognised (key : string) : Prop :=
  key ∈ basics \/ key ∈ details \/ key ∈ access.

(** Run a computation on a handle and the server, then let go of the handle. *)
Definition with_handle {A} (f : WebDAVFile.t) (m : Py (WebDAVFile.t * remote) A)
  : Py remote A :=
  fun srv => let (r, s) := m (f, srv) in (r, snd s).

(** The round trip of the specification:
    [write(open(p, "w"), B); close; read(open(p, "r"))]. *)
Definition write_close_read (py_int : string -> option Z)
    (attributes : string -> node -> raw_info) (p : string) (B : bytes) : Py remote bytes :=
  let* f := WebDAVFS.openbin py_int attributes p "w" in
  with_handle f (WebDAVFile.on_self (WebDAVFile.write B) ;;; WebDAVFile.close) ;;;
  let* g := WebDAVFS.openbin py_int attributes p "r" in
  with_handle g (WebDAVFile.on_self (WebDAVFile.read (-1))).

(** The server reports, for any file at [p], attributes that normalise. *)
Definition normalisable (py_int : string -> option Z)
    (attributes : string -> node -> raw_info) (p : string) : Prop :=
  forall c, exists d, WebDAVFS._create_info_dict py_int (attributes p (File c)) = Return d.

(** A handle on three bytes, as [openbin] returns it for mode ['r+']. *)
Definition abc_handle : WebDAVFile.t :=
  {| WebDAVFile.path := "/f.txt"; WebDAVFile.mode := "r+";
     WebDAVFile.data := {| BytesIO.buf := b "abc"; BytesIO.pos := 0; BytesIO.closed := false |};
     WebDAVFile.pos := 0; WebDAVFile.closed := false |}.

(** The value the details namespace gets for a raw value, if any: a
    non-empty size goes through [int], every other value is stored as it
    is. *)
Definition stored_detail (py_int : string -> option Z) (key : string)
    (val : option string) : option pyval :=
  if String.eqb key "size" && truthy val then
    match val with
    | Some s => PInt <$> py_int s
    | None => Some PNone
    end
  else Some (six_u val).

(** Whatever the server holds at [p] has attributes that normalise. *)
Definition normalises (py_int : string -> option Z)
    (attributes : string -> node -> raw_info) (srv : remote) (p : string) : Prop :=
  forall n, srv !! p = Some n ->
            exists d, WebDAVFS._create_info_dict py_int (attributes p n) = Return d.

(** That handle after [close()], and the server the close leaves when it
    started from the empty one. *)
Definition abc_closed : WebDAVFile.t :=
  {| WebDAVFile.path := "/f.txt"; WebDAVFile.mode := "r+";
     WebDAVFile.data := {| BytesIO.buf := []; BytesIO.pos := 3; BytesIO.closed := true |};
     WebDAVFile.pos := 0; WebDAVFile.closed := true |}.

Definition abc_stored : remote := {[ "/f.txt" := File (b "abc") ]}.

(** * Properties *)

#[local] Arguments Z.of_nat : simpl never.
#[local] Arguments Z.to_nat : simpl never.
#[local] Arguments Z.add : simpl never.
#[local] Arguments Z.sub : simpl never.
#[local] Arguments Z.max : simpl never.
#[local] Arguments Z.min : simpl never.

Ltac py_unfold :=
  unfold WebDAVFile.write, WebDAVFile.seek, WebDAVFile.read, WebDAVFile.truncate,
    WebDAVFile.tell, WebDAVFile.__length_hint__, WebDAVFile.on_data,
    BytesIO.seek, BytesIO.read, BytesIO.write, BytesIO.truncate, BytesIO.nbytes,
    BytesIO.check_closed, bind, ret, raise, gets, modify, zoom in *.

(** Name the fields of a handle and read the side conditions on them. *)
Ltac fields self :=
  destruct self as [pth md [bf cur bcl] p cl];
  unfold usable, in_sync, cursor, content in *; simpl in *; subst.

(** Read an equation between two results that returned. *)
Ltac returned :=
  let H := fresh "Hret" in intros H; inversion H; subst; clear H.

(** Decide the integer tests the code makes. *)
Ltac tests :=
  repeat match goal with
    | |- context [Z.ltb ?x ?y] => destruct (Z.ltb_spec x y); try lia; simpl
    | |- context [Z.eqb ?x ?y] => destruct (Z.eqb_spec x y); try lia; simpl
    end.

(** ** Seeking *)

Lemma seek_set_negative (self : WebDAVFile.t) (offset : Z) :
  offset < 0 ->
  WebDAVFile.seek offset Seek_set self = (Raise (ValueError "Negative seek position"), self).
Proof.
  intros Hneg. py_unfold. simpl. tests. reflexivity.
Qed.

Lemma seek_end_positive (self : WebDAVFile.t) (offset : Z) :
  0 < offset ->
  WebDAVFile.seek offset Seek_end self = (Raise (ValueError "Positive seek position"), self).
Proof.
  intros Hpos. py_unfold. simpl. tests. reflexivity.
Qed.

Lemma seek_current_clamped (self : WebDAVFile.t) (offset : Z) :
  usable self ->
  WebDAVFile.seek offset Seek_current self =
    (Return (Z.max 0 (WebDAVFile.pos self + offset)),
     WebDAVFile.set_data
       {| BytesIO.buf := content self;
          BytesIO.pos := Z.to_nat (Z.max 0 (WebDAVFile.pos self + offset));
          BytesIO.closed := false |}
       (WebDAVFile.set_pos (Z.max 0 (WebDAVFile.pos self + offset)) self)).
Proof.
  intros Hopen. fields self. py_unfold. simpl. tests. reflexivity.
Qed.

(** Whatever the mode of seeking, a seek that returns leaves the handle and
    its buffer at the position it returns, which is not negative. *)
Lemma seek_returns_position (self self' : WebDAVFile.t) (offset whence r : Z) :
  WebDAVFile.seek offset whence self = (Return r, self') ->
  0 <= r /\ WebDAVFile.pos self' = r /\ cursor self' = r.
Proof.
  fields self. py_unfold.
  destruct (whence =? Seek_set); [|destruct (whence =? Seek_current);
                                   [|destruct (whence =? Seek_end); [|discriminate]]].
  - destruct (Z.ltb_spec offset 0) as [Hlt|Hge]; [discriminate|]. simpl.
    destruct bcl; [discriminate|]. tests.
    intros Heq. inversion Heq; subst; clear Heq. simpl. lia.
  - simpl. destruct bcl; [discriminate|]. tests.
    intros Heq. inversion Heq; subst; clear Heq. simpl. lia.
  - destruct (0 <? offset); [discriminate|]. simpl.
    destruct bcl; [discriminate|]. simpl. tests.
    intros Heq. inversion Heq; subst; clear Heq. simpl. lia.
Qed.

Lemma seek_set_absolute (self : WebDAVFile.t) (offset : Z) :
  usable self -> 0 <= offset ->
  fst (WebDAVFile.seek offset Seek_set self) = Return offset.
Proof.
  intros Hopen Hge. fields self. py_unfold. simpl. tests. reflexivity.
Qed.

Lemma seek_end_relative (self : WebDAVFile.t) (offset : Z) :
  usable self -> offset <= 0 ->
  fst (WebDAVFile.seek offset Seek_end self) = Return (Z.max 0 (len (content self) + offset)).
Proof.
  intros Hopen Hle. fields self. py_unfold. simpl. tests. reflexivity.
Qed.

(** C9. Seek bounds: a negative offset from the start and a positive offset
    from the end raise [ValueError] (the invalid-argument error) and leave
    the handle as it was; a seek relative to the current position never
    fails on a usable handle and lands on [max 0 (position + offset)];
    every seek that returns, returns the new absolute position, which is
    what [tell] reports from then on and where the buffer stands. *)
Theorem seek_bounds (self : WebDAVFile.t) (offset : Z) :
  usable self ->
  (offset < 0 ->
   exists msg, WebDAVFile.seek offset Seek_set self = (Raise (ValueError msg), self)) /\
  (0 < offset ->
   exists msg, WebDAVFile.seek offset Seek_end self = (Raise (ValueError msg), self)) /\
  (exists self',
     WebDAVFile.seek offset Seek_current self
       = (Return (Z.max 0 (WebDAVFile.pos self + offset)), self')) /\
  (forall whence r self',
     WebDAVFile.seek offset whence self = (Return r, self') ->
     0 <= r /\ WebDAVFile.tell self' = (Return r, self') /\ cursor self' = r).
Proof.
  intros Hopen. repeat split.
  - intros Hneg. eexists. now apply seek_set_negative.
  - intros Hpos. eexists. now apply seek_end_positive.
  - eexists. now apply seek_current_clamped.
  - now apply seek_returns_position in H.
  - apply seek_returns_position in H as (_ & Hpos & _).
    unfold WebDAVFile.tell, gets. now rewrite Hpos.
  - now apply seek_returns_position in H.
Qed.

Lemma seek_bounds_witness :
  usable abc_handle /\
  ((-1 < 0 ->
    exists msg, WebDAVFile.seek (-1) Seek_set abc_handle
                = (Raise (ValueError msg), abc_handle)) /\
   (0 < -1 ->
    exists msg, WebDAVFile.seek (-1) Seek_end abc_handle
                = (Raise (ValueError msg), abc_handle)) /\
   (exists self',
      WebDAVFile.seek (-1) Seek_current abc_handle
        = (Return (Z.max 0 (WebDAVFile.pos abc_handle + -1)), self')) /\
   (forall whence r self',
      WebDAVFile.seek (-1) whence abc_handle = (Return r, self') ->
      0 <= r /\ WebDAVFile.tell self' = (Return r, self') /\ cursor self' = r)).
Proof.
  split; [reflexivity | apply (seek_bounds abc_handle (-1)); reflexivity].
Defined.

(** The examples of the specification: [seek(0, start)] then [tell()] is 0;
    [seek(-5, current)] from position 2 lands on 0. *)
Example seek_examples :
  fst ((WebDAVFile.seek 0 Seek_set ;;; WebDAVFile.tell) abc_handle) = Return 0 /\
  fst ((WebDAVFile.seek 2 Seek_set ;;;
        WebDAVFile.seek (-5) Seek_current ;;;
        WebDAVFile.tell) abc_handle) = Return 0 /\
  fst (WebDAVFile.seek (-1) Seek_end abc_handle) = Return 2 /\
  fst (WebDAVFile.seek (-7) Seek_end abc_handle) = Return 0.
Proof. repeat split; reflexivity. Qed.

(** ** Reading *)

(** What [read(size)] does for a size other than [-1]: the buffer hands out
    what it has from its own cursor, and the reported position moves by the
    size that was asked for. *)
Lemma read_sized (self : WebDAVFile.t) (size : Z) :
  Mode.reading (WebDAVFile.mode self) = true -> usable self -> size <> -1 ->
  exists out self',
    WebDAVFile.read size self = (Return out, self') /\
    WebDAVFile.pos self' = WebDAVFile.pos self + size /\
    content self' = content self /\
    cursor self' = cursor self + len out /\
    (0 <= size -> len out = Z.min size (Z.max 0 (len (content self) - cursor self))).
Proof.
  intros Hmode Hopen Hsize. fields self. py_unfold. simpl. rewrite Hmode. simpl.
  destruct (Z.eqb_spec size (-1)) as [|_]; [contradiction|]. simpl.
  do 2 eexists. split; [reflexivity|]. simpl. unfold len.
  rewrite length_take, length_drop. repeat split; tests; lia.
Qed.

(** [read(-1)] hands out the rest of the buffer and reports its length. *)
Lemma read_all (self : WebDAVFile.t) :
  Mode.reading (WebDAVFile.mode self) = true -> usable self ->
  exists self',
    WebDAVFile.read (-1) self
      = (Return (drop (Z.to_nat (cursor self)) (content self)), self') /\
    WebDAVFile.pos self' = len (content self) /\
    content self' = content self.
Proof.
  intros Hmode Hopen. fields self. py_unfold. simpl. rewrite Hmode. simpl.
  eexists. split; [apply f_equal2; [f_equal|reflexivity] | split; reflexivity].
  rewrite Nat2Z.id. apply take_ge. rewrite length_drop. unfold len. lia.
Qed.

(** When fewer bytes remain than were asked for, the reported position ends
    beyond the end of the buffer, further than the bytes returned. *)
Lemma read_overshoots (self : WebDAVFile.t) (n : Z) :
  Mode.reading (WebDAVFile.mode self) = true -> usable self -> in_sync self ->
  0 < n -> len (content self) - WebDAVFile.pos self < n ->
  exists out self',
    WebDAVFile.read n self = (Return out, self') /\
    len out = Z.max 0 (len (content self) - WebDAVFile.pos self) /\
    WebDAVFile.pos self' - WebDAVFile.pos self = n /\
    len out < n /\
    len (content self') < WebDAVFile.pos self'.
Proof.
  intros Hmode Hopen Hsync Hn Hfew.
  destruct (read_sized self n Hmode Hopen) as (out & self' & Hrun & Hpos & Hcont & _ & Hlen);
    [lia|].
  specialize (Hlen ltac:(lia)). unfold in_sync in Hsync. rewrite Hsync in Hlen.
  exists out, self'. rewrite Hcont. repeat split; try assumption; lia.
Qed.

(** When enough bytes remain, a read keeps the two cursors together. *)
Lemma read_in_sync (self : WebDAVFile.t) (n : Z) :
  Mode.reading (WebDAVFile.mode self) = true -> usable self -> in_sync self ->
  0 <= n <= len (content self) - WebDAVFile.pos self ->
  exists out self',
    WebDAVFile.read n self = (Return out, self') /\ len out = n /\ in_sync self'.
Proof.
  intros Hmode Hopen Hsync Hn.
  destruct (read_sized self n Hmode Hopen) as (out & self' & Hrun & Hpos & _ & Hcur & Hlen);
    [lia|].
  specialize (Hlen ltac:(lia)). unfold in_sync in *.
  exists out, self'. repeat split; [assumption | lia | lia].
Qed.

(** C3. [read(10)] on a fresh handle over the three bytes [abc] returns the
    three bytes, and [tell] then reports 10: the position has moved by the
    count asked for, past the end of the buffer, not by the three bytes
    returned. *)
Theorem read_short_advances_by_request :
  fst (WebDAVFile.tell abc_handle) = Return 0 /\
  fst (WebDAVFile.read 10 abc_handle) = Return (b "abc") /\
  fst ((WebDAVFile.read 10 ;;; WebDAVFile.tell) abc_handle) = Return 10 /\
  len (content (snd (WebDAVFile.read 10 abc_handle))) = 3.
Proof. repeat split; reflexivity. Qed.

(** ** Truncating *)

(** With no size given the buffer is cut at its own cursor. *)
Lemma truncate_default (self : WebDAVFile.t) :
  usable self ->
  exists r self',
    WebDAVFile.truncate None self = (Return r, self') /\
    r = len (content self') /\
    content self' = take (Z.to_nat (cursor self)) (content self) /\
    WebDAVFile.pos self' = WebDAVFile.pos self /\
    cursor self' = cursor self.
Proof.
  intros Hopen. fields self. py_unfold. simpl.
  destruct (Z.ltb_spec (Z.of_nat cur) 0) as [|_]; [lia|].
  destruct (Z.ltb_spec (Z.of_nat cur) (len bf)) as [Hlt|Hge]; simpl.
  - do 2 eexists. split; [reflexivity|]. simpl. now rewrite Nat2Z.id.
  - do 2 eexists. split; [reflexivity|]. simpl. rewrite Nat2Z.id.
    repeat split. symmetry. apply take_ge. unfold len in Hge. lia.
Qed.

(** C5, as the code has it. [truncate()] with the size omitted cuts the
    buffer at the buffer's cursor and returns the length that results: the
    content becomes its first [cursor] bytes, the reported position does
    not move, and the content is left as it was, with its length returned,
    exactly when the cursor stands at or beyond the end of the buffer. *)
Theorem truncate_default_cuts_at_cursor (self : WebDAVFile.t) :
  usable self ->
  exists self',
    WebDAVFile.truncate None self = (Return (Z.min (cursor self) (len (content self))), self') /\
    content self' = take (Z.to_nat (cursor self)) (content self) /\
    WebDAVFile.pos self' = WebDAVFile.pos self /\
    (content self' = content self <-> len (content self) <= cursor self).
Proof.
  intros Hopen.
  destruct (truncate_default self Hopen) as (r & self' & Hrun & -> & Hcont & Hpos & _).
  exists self'. rewrite Hrun, Hcont. repeat split; try assumption.
  - do 2 f_equal. unfold len, cursor. rewrite length_take. lia.
  - intros Hsame. apply (f_equal length) in Hsame. rewrite length_take in Hsame.
    unfold len, cursor in *. lia.
  - intros Hend. apply take_ge. unfold len, cursor in *. lia.
Qed.

Lemma truncate_default_cuts_at_cursor_witness :
  usable abc_handle /\
  exists self',
    WebDAVFile.truncate None abc_handle
      = (Return (Z.min (cursor abc_handle) (len (content abc_handle))), self') /\
    content self' = take (Z.to_nat (cursor abc_handle)) (content abc_handle) /\
    WebDAVFile.pos self' = WebDAVFile.pos abc_handle /\
    (content self' = content abc_handle <-> len (content abc_handle) <= cursor abc_handle).
Proof.
  split; [reflexivity | apply (truncate_default_cuts_at_cursor abc_handle); reflexivity].
Defined.

(** C5, as stated, fails: on a fresh handle over [abc], whose cursor is at
    0, [truncate()] empties the buffer and returns 0, not 3. *)
Lemma truncate_default_not_a_noop :
  ~ (forall self : WebDAVFile.t, usable self ->
       exists self',
         WebDAVFile.truncate None self = (Return (len (content self)), self') /\
         content self' = content self).
Proof.
  intros Hclaim.
  destruct (Hclaim abc_handle eq_refl) as (self' & Hrun & _).
  vm_compute in Hrun. discriminate Hrun.
Qed.

(** Growing works when the buffer's cursor stands at the end of the buffer. *)
Lemma truncate_grow_at_end (self : WebDAVFile.t) (size : Z) :
  usable self -> cursor self = len (content self) -> len (content self) < size ->
  exists self',
    WebDAVFile.truncate (Some size) self = (Return size, self') /\
    content self' = content self ++ zeros (size - len (content self)) /\
    WebDAVFile.pos self' = WebDAVFile.pos self.
Proof.
  intros Hopen Hend Hgrow. fields self. unfold len in *. py_unfold. simpl. unfold len.
  tests. unfold zeros.
  destruct (replicate (Z.to_nat (size - Z.of_nat (length bf))) x00) as [|z zs] eqn:Hz.
  { apply (f_equal length) in Hz. rewrite length_replicate in Hz. simpl in Hz. lia. }
  eexists. split; [reflexivity|]. simpl. split; [|reflexivity].
  assert (cur = length bf) as -> by lia.
  rewrite Nat.sub_diag. simpl. rewrite app_nil_r, firstn_all.
  rewrite drop_ge by (simpl; lia). now rewrite app_nil_r.
Qed.

(** In general the zero bytes are written at the buffer's cursor, so the
    length that results depends on where that cursor stands. *)
Lemma truncate_grow_length (self : WebDAVFile.t) (size : Z) :
  usable self -> len (content self) < size ->
  exists self',
    WebDAVFile.truncate (Some size) self = (Return size, self') /\
    len (content self')
      = Z.max (len (content self)) (cursor self + (size - len (content self))).
Proof.
  intros Hopen Hgrow. fields self. unfold len in *. py_unfold. simpl. unfold len.
  tests. unfold zeros.
  destruct (replicate (Z.to_nat (size - Z.of_nat (length bf))) x00) as [|z zs] eqn:Hz.
  { apply (f_equal length) in Hz. rewrite length_replicate in Hz. simpl in Hz. lia. }
  eexists. split; [reflexivity|]. simpl.
  apply (f_equal length) in Hz. rewrite length_replicate in Hz. simpl in Hz.
  rewrite !length_app, length_take, length_app, length_replicate. simpl.
  rewrite length_app, length_drop. lia.
Qed.

(** C4. On a fresh handle over the three bytes [abc], whose cursor is at 0,
    [truncate(5)] returns 5 but leaves a buffer of three bytes: the two zero
    bytes have overwritten [ab] instead of following [c]. *)
Theorem truncate_grow_overwrites_at_cursor :
  fst (WebDAVFile.truncate (Some 5) abc_handle) = Return 5 /\
  content (snd (WebDAVFile.truncate (Some 5) abc_handle)) = [x00; x00; x63] /\
  len (content (snd (WebDAVFile.truncate (Some 5) abc_handle))) = 3.
Proof. repeat split; reflexivity. Qed.

(** ** Writing and the two cursors *)

(** A seek that returns leaves the two cursors together. *)
Lemma seek_in_sync (self self' : WebDAVFile.t) (offset whence r : Z) :
  WebDAVFile.seek offset whence self = (Return r, self') -> in_sync self'.
Proof.
  intros Hrun. apply seek_returns_position in Hrun as (_ & Hpos & Hcur).
  unfold in_sync. congruence.
Qed.

(** So does a write, which ends with a relative seek. *)
Lemma write_in_sync (self self' : WebDAVFile.t) (data : bytes) (r : Z) :
  WebDAVFile.write data self = (Return r, self') -> in_sync self'.
Proof.
  unfold WebDAVFile.write, bind, gets.
  destruct (negb (Mode.writing (WebDAVFile.mode self))); [discriminate|].
  destruct (WebDAVFile.on_data (BytesIO.write data) self) as [[n|e] s1]; [|discriminate].
  destruct (WebDAVFile.seek n Seek_current s1) as [[q|e] s2] eqn:Hseek; [|discriminate].
  unfold ret. intros Heq. inversion Heq; subst.
  eapply seek_in_sync, Hseek.
Qed.

(** A write on a handle whose cursors are together puts the bytes at the
    reported position and moves it by their number. *)
Lemma write_at_position (self : WebDAVFile.t) (data : bytes) :
  Mode.writing (WebDAVFile.mode self) = true -> usable self -> in_sync self ->
  exists self',
    WebDAVFile.write data self = (Return (len data), self') /\
    WebDAVFile.pos self' = WebDAVFile.pos self + len data /\
    (data <> [] ->
     content self'
       = take (Z.to_nat (WebDAVFile.pos self))
           (content self ++ zeros (WebDAVFile.pos self - len (content self)))
         ++ data
         ++ drop (Z.to_nat (WebDAVFile.pos self + len data)) (content self)).
Proof.
  intros Hmode Hopen Hsync. fields self. py_unfold. simpl. rewrite Hmode. simpl.
  destruct data as [|x xs]; simpl.
  - tests. eexists. split; [reflexivity|]. simpl. split; [unfold len; simpl; lia|].
    intros Hne. contradiction.
  - tests. eexists. split; [reflexivity|]. simpl. split; [unfold len in *; simpl in *; lia|].
    intros _. unfold zeros, len. simpl length.
    rewrite Nat2Z.id.
    replace (Z.to_nat (Z.of_nat cur - Z.of_nat (length bf))) with (cur - length bf)%nat by lia.
    replace (Z.to_nat (Z.of_nat cur + Z.of_nat (S (length xs)))) with (cur + S (length xs))%nat
      by lia.
    reflexivity.
Qed.

(** A write on a handle that stands at 0 over the content [c]. *)
Lemma write_on_fresh (p m : string) (c B : bytes) (cl : bool) :
  Mode.writing m = true ->
  WebDAVFile.write B
    {| WebDAVFile.path := p; WebDAVFile.mode := m;
       WebDAVFile.data := {| BytesIO.buf := c; BytesIO.pos := 0; BytesIO.closed := false |};
       WebDAVFile.pos := 0; WebDAVFile.closed := cl |}
  = (Return (len B),
     {| WebDAVFile.path := p; WebDAVFile.mode := m;
        WebDAVFile.data :=
          {| BytesIO.buf := B ++ drop (length B) c; BytesIO.pos := length B;
             BytesIO.closed := false |};
        WebDAVFile.pos := len B; WebDAVFile.closed := cl |}).
Proof.
  intros Hmode. py_unfold. simpl. rewrite Hmode. simpl.
  destruct B as [|x xs]; simpl.
  - tests. reflexivity.
  - tests. unfold WebDAVFile.set_data, WebDAVFile.set_pos, len in *. simpl in *.
    repeat f_equal; lia.
Qed.

(** ** Flushing *)

Lemma flush_not_writable (self : WebDAVFile.t) (srv : remote) :
  Mode.writing (WebDAVFile.mode self) = false ->
  WebDAVFile.flush (self, srv) = (Return tt, (self, srv)).
Proof.
  intros Hmode. unfold WebDAVFile.flush, WebDAVFile.on_self, bind, gets, zoom, ret.
  simpl. now rewrite Hmode.
Qed.

(** What a flush of a writable handle does: the whole buffer becomes the
    content of the resource, and the buffer's cursor is left at its end. *)
Lemma flush_writable (self : WebDAVFile.t) (srv : remote) :
  Mode.writing (WebDAVFile.mode self) = true -> usable self ->
  WebDAVFile.flush (self, srv)
    = (Return tt,
       (WebDAVFile.set_data
          {| BytesIO.buf := content self;
             BytesIO.pos := length (content self);
             BytesIO.closed := false |} self,
        <[WebDAVFile.path self := File (content self)]> srv)).
Proof.
  intros Hmode Hopen. fields self.
  unfold WebDAVFile.flush, WebDAVFile.on_self, WebDAVFile.on_res, Resource.read_from.
  py_unfold. simpl. rewrite Hmode. simpl. unfold io_SEEK_SET. simpl.
  change (Z.to_nat 0) with 0%nat. change (Z.of_nat 0) with 0.
  rewrite Z.sub_0_r, Z.max_l by (unfold len; lia).
  unfold len. rewrite Nat2Z.id, drop_0, firstn_all. reflexivity.
Qed.

(** What a flush of a writable handle keeps: the bytes the handle holds,
    the position it reports, its path, its mode and its closed flag are as
    they were; on the server it replaces the content of the handle's
    resource by the whole buffer and touches nothing else; a second flush
    right after uploads the same bytes and changes nothing more. *)
Theorem flush_frame (self : WebDAVFile.t) (srv : remote) :
  Mode.writing (WebDAVFile.mode self) = true -> usable self ->
  exists self',
    WebDAVFile.flush (self, srv)
      = (Return tt, (self', <[WebDAVFile.path self := File (content self)]> srv)) /\
    content self' = content self /\
    fst (WebDAVFile.tell self') = fst (WebDAVFile.tell self) /\
    WebDAVFile.path self' = WebDAVFile.path self /\
    WebDAVFile.mode self' = WebDAVFile.mode self /\
    WebDAVFile.closed self' = WebDAVFile.closed self /\
    WebDAVFile.flush (self', <[WebDAVFile.path self := File (content self)]> srv)
      = (Return tt, (self', <[WebDAVFile.path self' := File (content self')]>
                              (<[WebDAVFile.path self := File (content self)]> srv))) /\
    <[WebDAVFile.path self' := File (content self')]>
      (<[WebDAVFile.path self := File (content self)]> srv)
      = <[WebDAVFile.path self := File (content self)]> srv.
Proof.
  intros Hmode Hopen. eexists. split; [now apply flush_writable|].
  repeat split.
  - rewrite flush_writable; [reflexivity | exact Hmode | reflexivity].
  - apply insert_insert_eq.
Qed.

Lemma flush_frame_witness :
  Mode.writing (WebDAVFile.mode abc_handle) = true /\ usable abc_handle /\
  exists self',
    WebDAVFile.flush (abc_handle, ∅)
      = (Return tt, (self', <[WebDAVFile.path abc_handle := File (content abc_handle)]> ∅)) /\
    content self' = content abc_handle /\
    fst (WebDAVFile.tell self') = fst (WebDAVFile.tell abc_handle) /\
    WebDAVFile.path self' = WebDAVFile.path abc_handle /\
    WebDAVFile.mode self' = WebDAVFile.mode abc_handle /\
    WebDAVFile.closed self' = WebDAVFile.closed abc_handle /\
    WebDAVFile.flush (self', <[WebDAVFile.path abc_handle := File (content abc_handle)]> ∅)
      = (Return tt, (self', <[WebDAVFile.path self' := File (content self')]>
                              (<[WebDAVFile.path abc_handle := File (content abc_handle)]> ∅))) /\
    <[WebDAVFile.path self' := File (content self')]>
      (<[WebDAVFile.path abc_handle := File (content abc_handle)]> ∅)
      = <[WebDAVFile.path abc_handle := File (content abc_handle)]> (∅ : remote).
Proof.
  split; [reflexivity | split; [reflexivity |]].
  apply (flush_frame abc_handle ∅); reflexivity.
Defined.

(** What a flush does not keep: it rewinds the buffer, the upload reads it
    to its end, and nothing seeks back.  The buffer's cursor is left at the
    end of the buffer, so the handle is as it was only if its buffer stood
    at the end already. *)
Lemma flush_changes_handle_unless_at_end (self : WebDAVFile.t) (srv : remote) :
  Mode.writing (WebDAVFile.mode self) = true -> usable self ->
  cursor (fst (snd (WebDAVFile.flush (self, srv)))) = len (content self) /\
  (fst (snd (WebDAVFile.flush (self, srv))) = self <-> cursor self = len (content self)).
Proof.
  intros Hmode Hopen. rewrite flush_writable by assumption. cbn [fst snd].
  destruct self as [pth md [bf cur bcl] p cl]. unfold usable in Hopen. simpl in Hopen.
  subst bcl. unfold WebDAVFile.set_data, cursor, content, len. simpl.
  split; [reflexivity|]. split.
  - intros Heq. injection Heq as Hcur. lia.
  - intros Hcur. apply Nat2Z.inj in Hcur. now subst cur.
Qed.

(** C10. The upload is not the only effect of a flush.  On a fresh handle
    over [abc], open for reading and writing, [flush()] returns, stores
    [abc] and keeps the content and the reported position, but the handle
    it leaves is not the handle it got: the buffer's cursor has gone from 0
    to 3, so that [read(1)] returns nothing where before the flush it
    returned [a], and [write(X)] appends where before the flush it
    overwrote the first byte. *)
Theorem flush_moves_buffer_cursor :
  let s' := snd (WebDAVFile.flush (abc_handle, ∅)) in
  fst (WebDAVFile.flush (abc_handle, ∅)) = Return tt /\
  snd s' = abc_stored /\
  content (fst s') = content abc_handle /\
  fst (WebDAVFile.tell (fst s')) = fst (WebDAVFile.tell abc_handle) /\
  fst s' <> abc_handle /\
  cursor abc_handle = 0 /\ cursor (fst s') = 3 /\
  fst (WebDAVFile.read 1 abc_handle) = Return (b "a") /\
  fst (WebDAVFile.read 1 (fst s')) = Return [] /\
  content (snd (WebDAVFile.write (b "X") abc_handle)) = b "Xbc" /\
  content (snd (WebDAVFile.write (b "X") (fst s'))) = b "abcX".
Proof.
  cbv zeta. repeat split; try (vm_compute; reflexivity).
  intros Heq. apply (f_equal cursor) in Heq. vm_compute in Heq. discriminate Heq.
Qed.

(** C6. The reported position and the buffer's cursor part company.  On a
    fresh handle over [abc], where they agree: after [read(10)], [tell]
    reports 10 while the buffer stands at 3, and the next write puts its
    byte at 3; after [truncate(5)] at the end of the buffer, [tell] reports
    3 while the buffer stands at 5; after [seek(1)] and [flush()], [tell]
    reports 1 while the buffer stands at 3, and the next [read(1)] returns
    nothing instead of the byte at position 1. *)
Theorem reported_position_leaves_cursor :
  in_sync abc_handle /\
  (let self' := snd (WebDAVFile.read 10 abc_handle) in
   fst (WebDAVFile.tell self') = Return 10 /\ cursor self' = 3 /\
   content (snd (WebDAVFile.write (b "X") self')) = b "abcX") /\
  (let self' := snd ((WebDAVFile.seek 0 Seek_end ;;;
                      WebDAVFile.truncate (Some 5)) abc_handle) in
   fst (WebDAVFile.tell self') = Return 3 /\ cursor self' = 5) /\
  (let s' := snd ((WebDAVFile.on_self (WebDAVFile.seek 1 Seek_set) ;;;
                   WebDAVFile.flush) (abc_handle, ∅)) in
   fst (WebDAVFile.tell (fst s')) = Return 1 /\ cursor (fst s') = 3 /\
   fst (WebDAVFile.on_self (WebDAVFile.read 1) s') = Return []).
Proof. repeat split; reflexivity. Qed.

(** ** Opening *)

Lemma validate_cases {S} (m : string) (s : S) :
  Mode.validate m s = (Return tt, s) \/ exists e, Mode.validate m s = (Raise e, s).
Proof.
  unfold Mode.validate, raise, ret. destruct m as [|c0 m']; [right; eauto|].
  repeat match goal with
         | |- context [if ?c then _ else _] => destruct c
         end; eauto.
Qed.

Lemma validate_bin_cases {S} (m : string) (s : S) :
  Mode.validate_bin m s = (Return tt, s) \/ exists e, Mode.validate_bin m s = (Raise e, s).
Proof.
  unfold Mode.validate_bin, bind.
  destruct (validate_cases m s) as [-> | [e ->]]; [|right; eauto].
  unfold raise, ret. destruct (Mode.has "t" m); eauto.
Qed.

(** A mode that passes [validate_bin] passes [validate]. *)
Lemma validate_bin_valid {S} (m : string) (s : S) :
  Mode.validate_bin m s = (Return tt, s) -> Mode.validate m s = (Return tt, s).
Proof.
  unfold Mode.validate_bin, bind. intros Hbin.
  destruct (validate_cases m s) as [Hv | [e Hv]]; [assumption|].
  rewrite Hv in Hbin. discriminate.
Qed.

(** The buffer a new handle gets when the resource is absent. *)
Lemma get_file_data_missing (srv : remote) (p m : string) :
  srv !! p = None ->
  WebDAVFile._get_file_data srv p m BytesIO.new = (Return tt, BytesIO.new).
Proof.
  intros Hnone. unfold WebDAVFile._get_file_data, try_except, Resource.write_to, bind.
  rewrite Hnone. reflexivity.
Qed.

(** The buffer a new handle gets for a file, in a mode without ['a']. *)
Lemma get_file_data_file (srv : remote) (p m : string) (c : bytes) :
  srv !! p = Some (File c) -> Mode.has "a" m = false ->
  WebDAVFile._get_file_data srv p m BytesIO.new
    = (Return tt, {| BytesIO.buf := c; BytesIO.pos := 0; BytesIO.closed := false |}).
Proof.
  intros Hfile Hmode. unfold WebDAVFile._get_file_data, try_except, Resource.write_to, bind.
  rewrite Hfile, Hmode. destruct c as [|x xs]; [reflexivity|].
  unfold BytesIO.write, BytesIO.seek, BytesIO.check_closed, bind, ret. simpl.
  now rewrite app_nil_r.
Qed.

Lemma init_missing (srv : remote) (p m : string) :
  srv !! p = None -> Mode.has "a" m = false -> Mode.validate m srv = (Return tt, srv) ->
  WebDAVFile.__init__ p m srv
    = (Return {| WebDAVFile.path := p; WebDAVFile.mode := m;
                 WebDAVFile.data := BytesIO.new;
                 WebDAVFile.pos := 0; WebDAVFile.closed := false |}, srv).
Proof.
  intros Hnone Hmode Hvalid. unfold WebDAVFile.__init__, bind.
  rewrite Hvalid, get_file_data_missing, Hmode by assumption. reflexivity.
Qed.

Lemma init_file (srv : remote) (p m : string) (c : bytes) :
  srv !! p = Some (File c) -> Mode.has "a" m = false ->
  Mode.validate m srv = (Return tt, srv) ->
  WebDAVFile.__init__ p m srv
    = (Return {| WebDAVFile.path := p; WebDAVFile.mode := m;
                 WebDAVFile.data :=
                   {| BytesIO.buf := c; BytesIO.pos := 0; BytesIO.closed := false |};
                 WebDAVFile.pos := 0; WebDAVFile.closed := false |}, srv).
Proof.
  intros Hfile Hmode Hvalid. unfold WebDAVFile.__init__, bind.
  rewrite Hvalid, (get_file_data_file srv p m c), Hmode by assumption. reflexivity.
Qed.

(** No handle comes out of [__init__] in an append mode: the method it
    calls for the initial position does not exist. *)
Lemma init_append_raises (srv srv' : remote) (p m : string) (f : WebDAVFile.t) :
  Mode.has "a" m = true -> WebDAVFile.__init__ p m srv <> (Return f, srv').
Proof.
  intros Hmode. unfold WebDAVFile.__init__, bind.
  destruct (validate_cases m srv) as [-> | [e ->]]; [|discriminate].
  destruct (WebDAVFile._get_file_data srv p m BytesIO.new) as [[[]|e] d]; [|discriminate].
  rewrite Hmode. discriminate.
Qed.

(** A handle that comes out of [__init__] reports position 0, and its
    buffer stands there too. *)
Lemma init_in_sync (srv srv' : remote) (p m : string) (f : WebDAVFile.t) :
  WebDAVFile.__init__ p m srv = (Return f, srv') ->
  in_sync f /\ WebDAVFile.pos f = 0 /\ usable f /\ WebDAVFile.closed f = false.
Proof.
  unfold WebDAVFile.__init__, bind.
  destruct (validate_cases m srv) as [-> | [e ->]]; [|discriminate].
  destruct (Mode.has "a" m) eqn:Hmode.
  { destruct (WebDAVFile._get_file_data srv p m BytesIO.new) as [[[]|e] d]; discriminate. }
  destruct (srv !! p) as [[|c]|] eqn:Hnode.
  - unfold WebDAVFile._get_file_data, try_except, Resource.write_to, bind.
    rewrite Hnode. discriminate.
  - rewrite (get_file_data_file srv p m c) by assumption.
    intros Heq. inversion Heq; subst. repeat split.
  - rewrite get_file_data_missing by assumption.
    intros Heq. inversion Heq; subst. repeat split.
Qed.

(** ** Normalising metadata *)

Section InfoDict.

Variable py_int : string -> option Z.

(** The three namespaces share no key. *)
Lemma namespaces_disjoint :
  basics ## details /\ basics ## access /\ details ## access.
Proof. repeat split; compute_done. Qed.

(** A key of a namespace is stored in that namespace and in no other. *)
Lemma classify_one_namespace (d d' : info_dict) (key : string) (val : option string) :
  WebDAVFS.classify py_int d (key, val) = Return d' ->
  (key ∈ basics /\ ns_basic d' = <[key := six_u val]> (ns_basic d) /\
   ns_details d' = ns_details d /\ ns_access d' = ns_access d) \/
  (key ∈ details /\ (exists v, ns_details d' = <[key := v]> (ns_details d)) /\
   ns_basic d' = ns_basic d /\ ns_access d' = ns_access d) \/
  (key ∈ access /\ ns_access d' = <[key := six_u val]> (ns_access d) /\
   ns_basic d' = ns_basic d /\ ns_details d' = ns_details d).
Proof.
  unfold WebDAVFS.classify. cbv beta iota.
  destruct (bool_decide_reflect (key ∈ basics)) as [Hb|_].
  { returned. left. auto. }
  destruct (bool_decide_reflect (key ∈ details)) as [Hd|_].
  { destruct (String.eqb key "size" && truthy val);
      [destruct val as [s|]; [destruct (py_int s); [|discriminate]|]|];
      returned; right; left; simpl; eauto. }
  destruct (bool_decide_reflect (key ∈ access)) as [Ha|_]; [|discriminate].
  returned. right; right. auto.
Qed.

(** A key of no namespace stops the loop with [KeyError]. *)
Lemma classify_unrecognised (d : info_dict) (key : string) (val : option string) :
  ~ recognised key ->
  WebDAVFS.classify py_int d (key, val) = Raise (KeyError "other").
Proof.
  unfold recognised, WebDAVFS.classify. intros Hnot. cbv beta iota.
  rewrite !bool_decide_eq_false_2 by tauto. reflexivity.
Qed.

Lemma classify_all_unrecognised (info : raw_info) (d : info_dict)
      (key : string) (val : option string) :
  (key, val) ∈ info -> ~ recognised key ->
  exists e, WebDAVFS.classify_all py_int d info = Raise e.
Proof.
  intros Hin Hnot. revert d.
  induction info as [|item rest IH]; intros d; [now apply elem_of_nil in Hin|].
  simpl. apply elem_of_cons in Hin as [<- | Hin].
  - rewrite classify_unrecognised by assumption. eauto.
  - destruct (WebDAVFS.classify py_int d item) as [d'|e]; eauto.
Qed.

(** Normalisation returns no dictionary for a mapping that holds a key of
    no namespace: it raises. *)
Lemma unrecognised_key_raises (info : raw_info) (key : string) (val : option string) :
  (key, val) ∈ info -> ~ recognised key ->
  exists e, WebDAVFS._create_info_dict py_int info = Raise e.
Proof. apply classify_all_unrecognised. Qed.

(** It returns one when every key is recognised and every non-empty size
    is a numeral [int] accepts. *)
Lemma recognised_keys_normalise (info : raw_info) :
  Forall (fun item : string * option string =>
            recognised (fst item) /\
            (fst item = "size" ->
             forall s, snd item = Some s -> s <> "" -> is_Some (py_int s))) info ->
  exists d, WebDAVFS._create_info_dict py_int info = Return d.
Proof.
  unfold WebDAVFS._create_info_dict. generalize
    {| ns_basic := {["is_dir" := PBool false]};
       ns_details := {["type" := PInt ResourceType_file]};
       ns_access := ∅ |}.
  induction info as [|[key val] rest IH]; intros d Hall; [simpl; eauto|].
  apply Forall_cons in Hall as [[Hrec Hsize] Hrest]. simpl in *.
  destruct (bool_decide_reflect (key ∈ basics)) as [Hb|Hnb]; [now apply IH|].
  destruct (bool_decide_reflect (key ∈ details)) as [Hd|Hnd].
  { destruct (String.eqb_spec key "size") as [->|_]; simpl; [|now apply IH].
    destruct val as [s|]; simpl; [|now apply IH].
    destruct (String.eqb_spec s "") as [->|Hne]; simpl; [now apply IH|].
    destruct (Hsize eq_refl s eq_refl Hne) as [n ->]. now apply IH. }
  destruct (bool_decide_reflect (key ∈ access)) as [Ha|Hna]; [now apply IH|].
  unfold recognised in Hrec. tauto.
Qed.

(** A dictionary that comes out of the normalisation describes a file:
    no raw key can touch ['is_dir']. *)
Lemma create_info_dict_is_file (info : raw_info) (d : info_dict) :
  WebDAVFS._create_info_dict py_int info = Return d -> is_dir d = false.
Proof.
  unfold WebDAVFS._create_info_dict.
  assert (Hinit : ns_basic {| ns_basic := {["is_dir" := PBool false]};
                              ns_details := {["type" := PInt ResourceType_file]};
                              ns_access := ∅ |} !! "is_dir" = Some (PBool false))
    by apply lookup_singleton_eq.
  revert Hinit. generalize
    {| ns_basic := {["is_dir" := PBool false]};
       ns_details := {["type" := PInt ResourceType_file]};
       ns_access := ∅ |}.
  induction info as [|[key val] rest IH]; intros d0 Hinv; cbn [WebDAVFS.classify_all].
  - returned. unfold is_dir. now rewrite Hinv.
  - destruct (WebDAVFS.classify py_int d0 (key, val)) as [d1|e] eqn:Hstep; [|discriminate].
    apply IH.
    apply classify_one_namespace in Hstep
      as [(Hk & Hb & _) | [(_ & _ & Hb & _) | (_ & _ & Hb & _)]];
      rewrite Hb; try assumption.
    rewrite lookup_insert_ne; [assumption|].
    unfold basics in Hk. apply elem_of_singleton in Hk. now subst.
Qed.

(** C7. A raw mapping with a key of no namespace, such as an entity tag
    next to the name, is not normalised: [_create_info_dict] raises
    [KeyError] on the bucket ['other'], which the dictionary does not
    have. *)
Theorem create_info_dict_unrecognised_key :
  WebDAVFS._create_info_dict py_int [("name", Some "f.txt"); ("getetag", Some "5d8c")]
    = Raise (KeyError "other") /\
  WebDAVFS._create_info_dict py_int [("getetag", Some "5d8c")]
    = Raise (KeyError "other").
Proof. split; vm_compute; reflexivity. Qed.

End InfoDict.

(** ** Closing *)

(** Closing a writable handle uploads its buffer (twice over, through the
    two flushes) and marks the handle and its buffer closed. *)
Lemma close_writable (self : WebDAVFile.t) (srv : remote) :
  Mode.writing (WebDAVFile.mode self) = true -> usable self ->
  WebDAVFile.closed self = false ->
  exists self',
    WebDAVFile.close (self, srv)
      = (Return tt, (self', <[WebDAVFile.path self := File (content self)]> srv)) /\
    WebDAVFile.closed self' = true /\
    BytesIO.closed (WebDAVFile.data self') = true.
Proof.
  intros Hmode Hopen Hclosed.
  unfold WebDAVFile.close, bind. unfold WebDAVFile.on_self at 1. unfold zoom, gets.
  simpl. rewrite Hclosed. simpl.
  rewrite flush_writable by assumption.
  unfold WebDAVFile.IOBase_close.
  rewrite flush_writable by (try assumption; reflexivity).
  simpl. rewrite insert_insert_eq.
  eexists. split; [reflexivity|]. split; reflexivity.
Qed.

(** A closed handle is left alone. *)
Lemma close_idempotent (self : WebDAVFile.t) (srv : remote) :
  WebDAVFile.closed self = true ->
  WebDAVFile.close (self, srv) = (Return tt, (self, srv)).
Proof.
  intros Hclosed. unfold WebDAVFile.close, WebDAVFile.on_self, bind, zoom, gets, ret.
  simpl. now rewrite Hclosed.
Qed.

(** ** Opening through the adapter *)

Section Adapter.

Variable py_int : string -> option Z.
Variable attributes : string -> node -> raw_info.

Local Abbreviation getinfo := (WebDAVFS.getinfo py_int attributes).
Local Abbreviation preflight := (WebDAVFS.preflight py_int attributes).
Local Abbreviation openbin := (WebDAVFS.openbin py_int attributes).

Lemma getinfo_missing (srv : remote) (p : string) :
  WebDAVFS.in_slash p = false -> srv !! p = None ->
  getinfo p srv = (Raise (ResourceNotFound p), srv).
Proof.
  intros Hroot Hnone.
  unfold WebDAVFS.getinfo, try_except, bind, WebDAVFS.client_info.
  now rewrite Hroot, Hnone.
Qed.

Lemma getinfo_file (srv : remote) (p : string) (c : bytes) (d : info_dict) :
  WebDAVFS.in_slash p = false -> srv !! p = Some (File c) ->
  WebDAVFS._create_info_dict py_int (attributes p (File c)) = Return d ->
  getinfo p srv = (Return d, srv).
Proof.
  intros Hroot Hfile Hnorm.
  unfold WebDAVFS.getinfo, WebDAVFS.isdir, WebDAVFS.client_info, WebDAVFS.client_is_dir,
    try_except, bind, lift, ret.
  rewrite Hroot, Hfile, Hnorm. cbv beta iota. now rewrite Hfile.
Qed.

Lemma preflight_missing (srv : remote) (p m : string) :
  WebDAVFS.in_slash p = false -> srv !! p = None ->
  preflight p m srv =
    if Mode.reading m then (Raise (ResourceNotFound p), srv)
    else if Mode.exclusive m then (Raise (FileExists p), srv)
    else (Return tt, srv).
Proof.
  intros Hroot Hnone. unfold WebDAVFS.preflight, try_except_else, bind.
  rewrite getinfo_missing by assumption.
  destruct (Mode.reading m); [reflexivity|].
  unfold raise, ret. now destruct (Mode.exclusive m).
Qed.

Lemma preflight_file (srv : remote) (p m : string) (c : bytes) (d : info_dict) :
  WebDAVFS.in_slash p = false -> srv !! p = Some (File c) ->
  WebDAVFS._create_info_dict py_int (attributes p (File c)) = Return d ->
  preflight p m srv =
    if Mode.exclusive m then (Raise (FileExists p), srv) else (Return tt, srv).
Proof.
  intros Hroot Hfile Hnorm. unfold WebDAVFS.preflight, try_except_else, bind.
  rewrite (getinfo_file srv p c d) by assumption.
  rewrite (create_info_dict_is_file py_int _ d Hnorm).
  unfold raise, ret. now destruct (Mode.exclusive m).
Qed.

(** Whatever the server holds, the pre-flight checks of an exclusive mode
    end in an exception. *)
Lemma preflight_exclusive_raises (srv : remote) (p m : string) :
  Mode.exclusive m = true -> exists e srv', preflight p m srv = (Raise e, srv').
Proof.
  intros Hexcl. unfold WebDAVFS.preflight, try_except_else, bind, raise, ret.
  destruct (getinfo p srv) as [[info|e] srv'].
  - destruct (is_dir info); [eauto|]. rewrite Hexcl. eauto.
  - destruct e; eauto.
    destruct (Mode.reading m); [eauto|]. rewrite Hexcl. eauto.
Qed.

(** No handle is ever opened in an exclusive mode. *)
Lemma openbin_exclusive_never_opens (srv srv' : remote) (p m : string) (f : WebDAVFile.t) :
  Mode.exclusive m = true -> openbin p m srv <> (Return f, srv').
Proof.
  intros Hexcl. unfold WebDAVFS.openbin, bind.
  destruct (validate_cases m srv) as [-> | [e ->]]; [|discriminate].
  destruct (validate_bin_cases m srv) as [-> | [e ->]]; [|discriminate].
  destruct (preflight_exclusive_raises srv p m Hexcl) as (e & srv1 & ->). discriminate.
Qed.

(** In an exclusive mode that does not read, [FileExists] is raised for a
    path that does not exist, just as it is for a file that does. *)
Lemma openbin_exclusive_missing (srv : remote) (p m : string) :
  WebDAVFS.in_slash p = false -> srv !! p = None ->
  Mode.validate_bin m srv = (Return tt, srv) ->
  Mode.reading m = false -> Mode.exclusive m = true ->
  openbin p m srv = (Raise (FileExists p), srv).
Proof.
  intros Hroot Hnone Hbin Hread Hexcl.
  pose proof (validate_bin_valid m srv Hbin) as Hvalid.
  unfold WebDAVFS.openbin, bind.
  now rewrite Hvalid, Hbin, preflight_missing, Hread, Hexcl by assumption.
Qed.

Lemma openbin_exclusive_file (srv : remote) (p m : string) (c : bytes) :
  WebDAVFS.in_slash p = false -> srv !! p = Some (File c) ->
  normalisable py_int attributes p ->
  Mode.validate_bin m srv = (Return tt, srv) -> Mode.exclusive m = true ->
  openbin p m srv = (Raise (FileExists p), srv).
Proof.
  intros Hroot Hfile Hnorm Hbin Hexcl.
  pose proof (validate_bin_valid m srv Hbin) as Hvalid.
  destruct (Hnorm c) as [d Hd].
  unfold WebDAVFS.openbin, bind.
  now rewrite Hvalid, Hbin, (preflight_file srv p m c d), Hexcl by assumption.
Qed.

(** C2. Opening the path [/new.txt], which does not exist on the empty
    server, in the exclusive-create mode ['x'] raises [FileExists]: no
    handle is returned. *)
Theorem openbin_exclusive_on_missing_path :
  (∅ : remote) !! "/new.txt" = None /\
  Mode.exclusive "x" = true /\
  openbin "/new.txt" "x" ∅ = (Raise (FileExists "/new.txt"), ∅).
Proof. repeat split. Qed.

(** What [openbin] returns for an absent path in a mode that neither
    reads, nor appends, nor is exclusive. *)
Lemma openbin_missing_creates (srv : remote) (p m : string) :
  WebDAVFS.in_slash p = false -> srv !! p = None ->
  Mode.validate_bin m srv = (Return tt, srv) ->
  Mode.reading m = false -> Mode.exclusive m = false -> Mode.has "a" m = false ->
  openbin p m srv
    = (Return {| WebDAVFile.path := p; WebDAVFile.mode := m;
                 WebDAVFile.data := BytesIO.new;
                 WebDAVFile.pos := 0; WebDAVFile.closed := false |}, srv).
Proof.
  intros Hroot Hnone Hbin Hread Hexcl Happ.
  pose proof (validate_bin_valid m srv Hbin) as Hvalid.
  unfold WebDAVFS.openbin, bind.
  rewrite Hvalid, Hbin, preflight_missing, Hread, Hexcl by assumption.
  now apply init_missing.
Qed.

(** In a mode that reads, an absent path is reported as not found. *)
Lemma openbin_missing_reading (srv : remote) (p m : string) :
  WebDAVFS.in_slash p = false -> srv !! p = None ->
  Mode.validate_bin m srv = (Return tt, srv) -> Mode.reading m = true ->
  openbin p m srv = (Raise (ResourceNotFound p), srv).
Proof.
  intros Hroot Hnone Hbin Hread.
  pose proof (validate_bin_valid m srv Hbin) as Hvalid.
  unfold WebDAVFS.openbin, bind.
  now rewrite Hvalid, Hbin, preflight_missing, Hread by assumption.
Qed.

(** C8. Missing-file policy.  For a path, other than the root, at which
    the server holds nothing: opening it for reading (['r'], ['rb']) raises
    [ResourceNotFound]; opening it for writing (['w'], ['wb']) returns a
    handle on an empty buffer, and closing that handle leaves a file of
    length zero at the path. *)
Theorem missing_file_policy (srv : remote) (p : string) :
  srv !! p = None -> WebDAVFS.in_slash p = false ->
  (forall m, m = "r" \/ m = "rb" ->
   openbin p m srv = (Raise (ResourceNotFound p), srv)) /\
  (forall m, m = "w" \/ m = "wb" ->
   exists f f' srv',
     openbin p m srv = (Return f, srv) /\
     content f = [] /\
     WebDAVFile.close (f, srv) = (Return tt, (f', srv')) /\
     srv' !! p = Some (File [])).
Proof.
  intros Hnone Hroot. split.
  - intros m [-> | ->]; now apply openbin_missing_reading.
  - intros m Hm.
    assert (Hopen : openbin p m srv
              = (Return {| WebDAVFile.path := p; WebDAVFile.mode := m;
                           WebDAVFile.data := BytesIO.new;
                           WebDAVFile.pos := 0; WebDAVFile.closed := false |}, srv))
      by (destruct Hm as [-> | ->]; now apply openbin_missing_creates).
    assert (Hw : Mode.writing m = true) by now destruct Hm as [-> | ->].
    destruct (close_writable
                {| WebDAVFile.path := p; WebDAVFile.mode := m;
                   WebDAVFile.data := BytesIO.new;
                   WebDAVFile.pos := 0; WebDAVFile.closed := false |} srv)
      as (f' & Hclose & _); [assumption | reflexivity | reflexivity |].
    do 3 eexists. split; [exact Hopen|]. split; [reflexivity|].
    split; [exact Hclose|]. apply lookup_insert_eq.
Qed.

(** ** The round trip *)

(** What [openbin] returns for a file in a mode that neither appends nor
    is exclusive: a handle on the whole content, at position 0. *)
Lemma openbin_file (srv : remote) (p m : string) (c : bytes) :
  WebDAVFS.in_slash p = false -> srv !! p = Some (File c) ->
  normalisable py_int attributes p ->
  Mode.validate_bin m srv = (Return tt, srv) ->
  Mode.exclusive m = false -> Mode.has "a" m = false ->
  openbin p m srv
    = (Return {| WebDAVFile.path := p; WebDAVFile.mode := m;
                 WebDAVFile.data :=
                   {| BytesIO.buf := c; BytesIO.pos := 0; BytesIO.closed := false |};
                 WebDAVFile.pos := 0; WebDAVFile.closed := false |}, srv).
Proof.
  intros Hroot Hfile Hnorm Hbin Hexcl Happ.
  pose proof (validate_bin_valid m srv Hbin) as Hvalid.
  destruct (Hnorm c) as [d Hd].
  unfold WebDAVFS.openbin, bind.
  rewrite Hvalid, Hbin, (preflight_file srv p m c d), Hexcl by assumption.
  now apply init_file.
Qed.

(** In mode ['w'] the old content is downloaded and stays in the buffer:
    the round trip returns the bytes written followed by whatever the
    old content had beyond their length. *)
Lemma write_close_read_result (srv : remote) (p : string) (B : bytes) :
  WebDAVFS.in_slash p = false -> normalisable py_int attributes p ->
  (srv !! p = None ->
   fst (write_close_read py_int attributes p B srv) = Return B) /\
  (forall c, srv !! p = Some (File c) ->
   fst (write_close_read py_int attributes p B srv) = Return (B ++ drop (length B) c)).
Proof.
  intros Hroot Hnorm.
  assert (Hgen : forall c,
             openbin p "w" srv
             = (Return {| WebDAVFile.path := p; WebDAVFile.mode := "w";
                          WebDAVFile.data :=
                            {| BytesIO.buf := c; BytesIO.pos := 0;
                               BytesIO.closed := false |};
                          WebDAVFile.pos := 0; WebDAVFile.closed := false |}, srv) ->
             fst (write_close_read py_int attributes p B srv)
             = Return (B ++ drop (length B) c)).
  { intros c Hopen. unfold write_close_read, bind. rewrite Hopen.
    unfold with_handle at 1. unfold bind. unfold WebDAVFile.on_self at 1. unfold zoom.
    cbn [fst snd]. rewrite write_on_fresh by reflexivity. cbn [fst snd].
    match goal with
    | |- context [WebDAVFile.close (?f, srv)] =>
        destruct (close_writable f srv) as (f' & -> & _); try reflexivity
    end.
    cbn [fst snd WebDAVFile.path content WebDAVFile.data BytesIO.buf].
    rewrite (openbin_file _ p "r" (B ++ drop (length B) c));
      try reflexivity; try assumption; [|apply lookup_insert_eq].
    unfold with_handle, WebDAVFile.on_self, zoom. cbn [fst snd].
    match goal with
    | |- context [WebDAVFile.read (-1) ?g] =>
        destruct (read_all g) as (g' & -> & _); try reflexivity
    end. }
  split.
  - intros Hnone. rewrite <- (app_nil_r B) at 2. rewrite <- (drop_nil (length B)).
    apply Hgen. now apply openbin_missing_creates.
  - intros c Hfile. apply Hgen. now apply openbin_file.
Qed.

End Adapter.

(** The old tail is gone exactly when the old content was no longer than
    what was written. *)
Lemma old_tail_empty (B c : bytes) :
  B ++ drop (length B) c = B <-> (length c <= length B)%nat.
Proof.
  split.
  - intros Heq. apply (f_equal length) in Heq.
    rewrite length_app, length_drop in Heq. lia.
  - intros Hle. rewrite drop_ge by assumption. apply app_nil_r.
Qed.

(** ** On the concrete server *)

Lemma decimal_int_of_size (n : nat) :
  is_Some (decimal_int (NilZero.string_of_uint (Nat.to_uint n))).
Proof.
  unfold decimal_int.
  destruct (Nat.to_uint n) as [|u|u|u|u|u|u|u|u|u|u] eqn:Hn; [now eexists|..];
    match goal with
    | |- context [NilZero.string_of_uint ?d] =>
        change (NilZero.string_of_uint d) with (NilZero.string_of_int (Decimal.Pos d));
        rewrite NilZero.isi by discriminate; now eexists
    end.
Qed.

(** The concrete server reports attributes that normalise. *)
Lemma dav_normalisable (p : string) : normalisable decimal_int dav_attributes p.
Proof.
  intros c. apply recognised_keys_normalise. unfold dav_attributes.
  constructor; [|constructor; [|constructor]]; simpl; split.
  - left. compute_done.
  - discriminate.
  - right; left. compute_done.
  - intros _ s [= <-] _. apply decimal_int_of_size.
Qed.

(** On it, the round trip over a file returns the bytes written followed
    by the old content beyond their length. *)
Lemma dav_write_close_read (srv : remote) (p : string) (B c : bytes) :
  WebDAVFS.in_slash p = false -> srv !! p = Some (File c) ->
  fst (write_close_read decimal_int dav_attributes p B srv)
    = Return (B ++ drop (length B) c).
Proof.
  intros Hroot Hfile.
  now apply (write_close_read_result decimal_int dav_attributes srv p B Hroot
               (dav_normalisable p)).
Qed.

(** C1. The path [/f.txt] holds the eleven bytes [hello world].  Opening it
    in mode ['w'], writing [abc], closing, then opening it for reading and
    reading to the end returns [abclo world], not [abc]: the old content
    beyond the third byte has survived, on the server too. *)
Theorem write_mode_keeps_old_tail :
  let srv : remote := {[ "/f.txt" := File (b "hello world") ]} in
  fst (write_close_read decimal_int dav_attributes "/f.txt" (b "abc") srv)
    = Return (b "abclo world") /\
  snd (write_close_read decimal_int dav_attributes "/f.txt" (b "abc") srv) !! "/f.txt"
    = Some (File (b "abclo world")).
Proof. split; vm_compute; reflexivity. Qed.

(** Where nothing longer was there before, the round trip returns what was
    written. *)
Example write_close_read_fresh :
  fst (write_close_read decimal_int dav_attributes "/f.txt" (b "abc") ∅) = Return (b "abc") /\
  fst (write_close_read decimal_int dav_attributes "/f.txt" (b "abc")
         {[ "/f.txt" := File (b "xy") ]}) = Return (b "abc").
Proof. split; vm_compute; reflexivity. Qed.

(** Other outcomes of [openbin] on the concrete server: an existing file in
    mode ['x'], a directory, the root, an append mode, a text mode. *)
Example openbin_outcomes :
  let srv : remote := {[ "/f.txt" := File (b "abc"); "/d" := Dir ]} in
  let open := WebDAVFS.openbin decimal_int dav_attributes in
  fst (open "/f.txt" "x" srv) = Raise (FileExists "/f.txt") /\
  fst (open "/d" "r" srv) = Raise (FileExpected "/d") /\
  fst (open "/" "r" srv) = Raise (FileExpected "/") /\
  fst (open "/f.txt" "a" srv) = Raise (AttributeError "_get_data_size") /\
  fst (open "/f.txt" "rt" srv) = Raise (ValueError "mode must be binary") /\
  fst (open "/f.txt" "r+" srv) = Return abc_handle.
Proof. repeat split; vm_compute; reflexivity. Qed.

Lemma missing_file_policy_witness :
  (∅ : remote) !! "/missing.txt" = None /\
  WebDAVFS.in_slash "/missing.txt" = false /\
  (forall m, m = "r" \/ m = "rb" ->
   WebDAVFS.openbin decimal_int dav_attributes "/missing.txt" m ∅
     = (Raise (ResourceNotFound "/missing.txt"), ∅)) /\
  (forall m, m = "w" \/ m = "wb" ->
   exists f f' srv',
     WebDAVFS.openbin decimal_int dav_attributes "/missing.txt" m ∅ = (Return f, ∅) /\
     content f = [] /\
     WebDAVFile.close (f, ∅) = (Return tt, (f', srv')) /\
     srv' !! "/missing.txt" = Some (File [])).
Proof.
  split; [reflexivity | split; [reflexivity |]].
  apply (missing_file_policy decimal_int dav_attributes ∅ "/missing.txt"); reflexivity.
Defined.

(** * Further properties of the handle *)

(** A handle that is not open for writing changes nothing on the server: a
    write raises and leaves the handle as it was, a flush does nothing, and
    a close uploads nothing. *)
Theorem read_only_handle_never_writes (self : WebDAVFile.t) (srv : remote) :
  Mode.writing (WebDAVFile.mode self) = false ->
  (forall data, WebDAVFile.write data self
                = (Raise (IOError "File is not in write mode"), self)) /\
  WebDAVFile.flush (self, srv) = (Return tt, (self, srv)) /\
  snd (snd (WebDAVFile.close (self, srv))) = srv.
Proof.
  intros Hmode. split; [|split].
  - intros data. unfold WebDAVFile.write, bind, gets, raise. now rewrite Hmode.
  - now apply flush_not_writable.
  - unfold WebDAVFile.close, bind. unfold WebDAVFile.on_self at 1. unfold zoom, gets.
    cbn [fst snd]. destruct (WebDAVFile.closed self); [reflexivity|]. cbn [negb].
    rewrite flush_not_writable by assumption.
    unfold WebDAVFile.IOBase_close. rewrite flush_not_writable by assumption.
    reflexivity.
Qed.

Lemma read_only_handle_never_writes_witness :
  Mode.writing "rb" = false /\
  let self := {| WebDAVFile.path := "/f.txt"; WebDAVFile.mode := "rb";
                 WebDAVFile.data := {| BytesIO.buf := b "abc"; BytesIO.pos := 0;
                                       BytesIO.closed := false |};
                 WebDAVFile.pos := 0; WebDAVFile.closed := false |} in
  (forall data, WebDAVFile.write data self
                = (Raise (IOError "File is not in write mode"), self)) /\
  WebDAVFile.flush (self, ∅) = (Return tt, (self, ∅)) /\
  snd (snd (WebDAVFile.close (self, (∅ : remote)))) = ∅.
Proof.
  split; [reflexivity|].
  apply (read_only_handle_never_writes
           {| WebDAVFile.path := "/f.txt"; WebDAVFile.mode := "rb";
              WebDAVFile.data := {| BytesIO.buf := b "abc"; BytesIO.pos := 0;
                                    BytesIO.closed := false |};
              WebDAVFile.pos := 0; WebDAVFile.closed := false |} ∅).
  reflexivity.
Defined.

(** Random access: on a handle open for reading and writing whose cursors
    agree, writing [data] at the current position, seeking back to that
    position and reading as many bytes returns [data], wherever the
    position stood, within the buffer or beyond its end. *)
Theorem write_seek_read_back (self : WebDAVFile.t) (data : bytes) :
  Mode.reading (WebDAVFile.mode self) = true ->
  Mode.writing (WebDAVFile.mode self) = true ->
  usable self -> in_sync self ->
  fst ((WebDAVFile.write data ;;;
        WebDAVFile.seek (WebDAVFile.pos self) Seek_set ;;;
        WebDAVFile.read (len data)) self) = Return data.
Proof.
  intros Hr Hw Hopen Hsync. fields self. py_unfold. simpl. rewrite Hw. simpl.
  destruct data as [|x xs].
  - simpl. tests. rewrite Hr. simpl. tests.
    all: f_equal;
      match goal with
      | |- take ?n _ = [] =>
          replace n with 0%nat by (unfold len in *; simpl in *; lia); reflexivity
      end.
  - simpl. tests. rewrite Hr. simpl. tests.
    all: unfold len in *; simpl length in *; try lia.
    all: try match goal with
             | H : _ - _ < Z.of_nat (S _) |- _ =>
                 exfalso; revert H;
                 rewrite length_app, length_take, length_app, length_replicate;
                 simpl length; rewrite length_app; lia
             end.
    f_equal. rewrite Nat2Z.id.
    rewrite drop_app_length'
      by (rewrite length_take, length_app, length_replicate; lia).
    rewrite ?Nat2Z.id. exact (take_app_length (x :: xs) _).
Qed.

Lemma write_seek_read_back_witness :
  Mode.reading (WebDAVFile.mode abc_handle) = true /\
  Mode.writing (WebDAVFile.mode abc_handle) = true /\
  usable abc_handle /\ in_sync abc_handle /\
  fst ((WebDAVFile.write (b "xy") ;;;
        WebDAVFile.seek (WebDAVFile.pos abc_handle) Seek_set ;;;
        WebDAVFile.read (len (b "xy"))) abc_handle) = Return (b "xy").
Proof.
  repeat (split; [reflexivity|]).
  apply (write_seek_read_back abc_handle (b "xy")); reflexivity.
Defined.

(** A write on a handle that stands at the end of its buffer appends, and
    the handle stands at the end again. *)
Lemma write_at_end_appends (self : WebDAVFile.t) (data : bytes) :
  Mode.writing (WebDAVFile.mode self) = true -> usable self -> in_sync self ->
  WebDAVFile.pos self = len (content self) ->
  exists self',
    WebDAVFile.write data self = (Return (len data), self') /\
    content self' = content self ++ data /\
    WebDAVFile.pos self' = len (content self') /\
    WebDAVFile.mode self' = WebDAVFile.mode self /\
    usable self' /\ in_sync self'.
Proof.
  intros Hw Hopen Hsync Hend. fields self. py_unfold. simpl. rewrite Hw. simpl.
  unfold len in Hend. apply Nat2Z.inj in Hend. subst cur.
  destruct data as [|x xs]; simpl; tests.
  - eexists. split; [reflexivity|]. simpl. rewrite app_nil_r.
    unfold len. simpl. repeat split; lia.
  - eexists. split; [reflexivity|]. simpl.
    rewrite Nat.sub_diag. simpl. rewrite app_nil_r, firstn_all.
    rewrite drop_ge by lia. rewrite app_nil_r.
    unfold len. rewrite length_app. simpl. repeat split; lia.
Qed.

(** Two writes in a row on a handle that stands at the end of its buffer
    leave the buffer followed by the first bytes, then the second, and the
    reported position is the new length. *)
Theorem sequential_writes_concatenate (self : WebDAVFile.t) (B1 B2 : bytes) :
  Mode.writing (WebDAVFile.mode self) = true -> usable self -> in_sync self ->
  WebDAVFile.pos self = len (content self) ->
  exists self',
    (WebDAVFile.write B1 ;;; WebDAVFile.write B2) self = (Return (len B2), self') /\
    content self' = content self ++ B1 ++ B2 /\
    fst (WebDAVFile.tell self') = Return (len (content self ++ B1 ++ B2)).
Proof.
  intros Hw Hopen Hsync Hend.
  destruct (write_at_end_appends self B1 Hw Hopen Hsync Hend)
    as (s1 & Hrun1 & Hc1 & Hp1 & Hm1 & Ho1 & Hs1).
  rewrite <- Hm1 in Hw.
  destruct (write_at_end_appends s1 B2 Hw Ho1 Hs1 Hp1)
    as (s2 & Hrun2 & Hc2 & Hp2 & _).
  exists s2. unfold bind. rewrite Hrun1, Hrun2. split; [reflexivity|].
  rewrite Hc2, Hc1, <- app_assoc. split; [reflexivity|].
  unfold WebDAVFile.tell, gets. simpl. now rewrite Hp2, Hc2, Hc1, <- app_assoc.
Qed.

Lemma sequential_writes_concatenate_witness :
  let self := {| WebDAVFile.path := "/f.txt"; WebDAVFile.mode := "wb";
                 WebDAVFile.data := BytesIO.new;
                 WebDAVFile.pos := 0; WebDAVFile.closed := false |} in
  Mode.writing (WebDAVFile.mode self) = true /\ usable self /\ in_sync self /\
  WebDAVFile.pos self = len (content self) /\
  exists self',
    (WebDAVFile.write (b "ab") ;;; WebDAVFile.write (b "cd")) self
      = (Return (len (b "cd")), self') /\
    content self' = content self ++ b "ab" ++ b "cd" /\
    fst (WebDAVFile.tell self') = Return (len (content self ++ b "ab" ++ b "cd")).
Proof.
  repeat (split; [reflexivity|]).
  apply (sequential_writes_concatenate
           {| WebDAVFile.path := "/f.txt"; WebDAVFile.mode := "wb";
              WebDAVFile.data := BytesIO.new;
              WebDAVFile.pos := 0; WebDAVFile.closed := false |}
           (b "ab") (b "cd")); reflexivity.
Defined.

(** Reading in two steps loses nothing: on a handle whose cursors agree, a
    read of [n] bytes that the buffer still has, followed by a read to the
    end, returns between them the content from the position on, in order,
    and leaves the reported position at the end of the buffer. *)
Theorem sequential_reads_partition (self : WebDAVFile.t) (n : Z) :
  Mode.reading (WebDAVFile.mode self) = true -> usable self -> in_sync self ->
  0 <= n <= len (content self) - WebDAVFile.pos self ->
  exists out1 s1 out2 s2,
    WebDAVFile.read n self = (Return out1, s1) /\
    WebDAVFile.read (-1) s1 = (Return out2, s2) /\
    len out1 = n /\
    out1 ++ out2 = drop (Z.to_nat (WebDAVFile.pos self)) (content self) /\
    WebDAVFile.pos s2 = len (content self).
Proof.
  intros Hr Hopen Hsync Hn. fields self. py_unfold. simpl. rewrite Hr. simpl.
  tests. unfold len in *.
  do 4 eexists. split; [reflexivity|]. simpl. rewrite Hr. simpl.
  split; [reflexivity|]. rewrite length_take, length_drop, !Nat2Z.id.
  split; [lia|]. split; [|reflexivity].
  rewrite (take_ge (drop (cur + Z.to_nat n) bf)) by (rewrite length_drop; lia).
  rewrite <- drop_drop. apply take_drop.
Qed.

Lemma sequential_reads_partition_witness :
  Mode.reading (WebDAVFile.mode abc_handle) = true /\ usable abc_handle /\
  in_sync abc_handle /\
  0 <= 2 <= len (content abc_handle) - WebDAVFile.pos abc_handle /\
  exists out1 s1 out2 s2,
    WebDAVFile.read 2 abc_handle = (Return out1, s1) /\
    WebDAVFile.read (-1) s1 = (Return out2, s2) /\
    len out1 = 2 /\
    out1 ++ out2 = drop (Z.to_nat (WebDAVFile.pos abc_handle)) (content abc_handle) /\
    WebDAVFile.pos s2 = len (content abc_handle).
Proof.
  repeat (split; [reflexivity || (vm_compute; split; discriminate)|]).
  apply (sequential_reads_partition abc_handle 2); try reflexivity.
  vm_compute. split; discriminate.
Defined.

(** Truncating to a size within the buffer keeps its first [size] bytes and
    returns [size]; the reported position and the buffer's cursor stay
    where they were, also when that is beyond the new end.  A negative size
    raises [ValueError] and changes nothing. *)
Theorem truncate_shrinks (self : WebDAVFile.t) (size : Z) :
  usable self -> size <= len (content self) ->
  (size < 0 /\
   WebDAVFile.truncate (Some size) self = (Raise (ValueError "negative size value"), self)) \/
  (0 <= size /\
   exists self',
     WebDAVFile.truncate (Some size) self = (Return size, self') /\
     content self' = take (Z.to_nat size) (content self) /\
     WebDAVFile.pos self' = WebDAVFile.pos self /\
     cursor self' = cursor self).
Proof.
  intros Hopen Hle. fields self. py_unfold. simpl.
  destruct (Z.ltb_spec size 0) as [Hneg|Hpos]; [left; split; [lia|reflexivity]|].
  right. split; [assumption|].
  destruct (Z.ltb_spec size (len bf)) as [Hlt|Hge]; simpl.
  - unfold len in *. rewrite length_take.
    destruct (Z.eqb_spec size 0) as [->|Hnz]; simpl.
    + eexists. split; [reflexivity|]. repeat split.
    + destruct (Z.ltb_spec (Z.of_nat (Z.to_nat size `min` length bf)) size); [lia|].
      simpl. eexists. split; [reflexivity|]. repeat split.
  - assert (size = len bf) as -> by lia.
    destruct (Z.eqb_spec (len bf) 0) as [Hz|Hnz]; simpl.
    + eexists. split; [now rewrite Hz|]. simpl.
      unfold len. rewrite Nat2Z.id, firstn_all. repeat split.
    + destruct (Z.ltb_spec (len bf) (len bf)); [lia|]. simpl.
      eexists. split; [reflexivity|]. simpl.
      unfold len. rewrite Nat2Z.id, firstn_all. repeat split.
Qed.

Lemma truncate_shrinks_witness :
  usable abc_handle /\ 1 <= len (content abc_handle) /\
  ((1 < 0 /\
    WebDAVFile.truncate (Some 1) abc_handle
      = (Raise (ValueError "negative size value"), abc_handle)) \/
   (0 <= 1 /\
    exists self',
      WebDAVFile.truncate (Some 1) abc_handle = (Return 1, self') /\
      content self' = take (Z.to_nat 1) (content abc_handle) /\
      WebDAVFile.pos self' = WebDAVFile.pos abc_handle /\
      cursor self' = cursor abc_handle)).
Proof.
  split; [reflexivity|]. split; [vm_compute; discriminate|].
  apply (truncate_shrinks abc_handle 1); [reflexivity | vm_compute; discriminate].
Defined.

(** ** Closed handles *)

(** A close that returns on a handle that was open has released its buffer
    and marked it closed. *)
Lemma close_releases (self self' : WebDAVFile.t) (srv srv' : remote) :
  WebDAVFile.closed self = false ->
  WebDAVFile.close (self, srv) = (Return tt, (self', srv')) ->
  WebDAVFile.closed self' = true /\ BytesIO.closed (WebDAVFile.data self') = true.
Proof.
  intros Hopen. unfold WebDAVFile.close, bind. unfold WebDAVFile.on_self at 1.
  unfold zoom, gets. cbn [fst snd]. rewrite Hopen. cbn [negb].
  destruct (WebDAVFile.flush (self, srv)) as [[[]|e] [s1 r1]]; [|discriminate].
  unfold WebDAVFile.IOBase_close.
  destruct (WebDAVFile.flush (s1, r1)) as [[[]|e] [s2 r2]]; [|discriminate].
  cbn [fst snd]. unfold WebDAVFile.on_self, WebDAVFile.on_data, BytesIO.close, zoom, modify.
  cbn [fst snd]. returned. split; reflexivity.
Qed.

(** Close is idempotent and a further close uploads nothing: after a close
    that returned, a close of the handle it left returns at once and
    changes neither the handle nor the server, whatever the server holds
    by then, be it the state the first close left, one in which the
    resource has been removed, or one in which it has other content. *)
Theorem close_twice (self self1 : WebDAVFile.t) (srv srv1 : remote) :
  WebDAVFile.close (self, srv) = (Return tt, (self1, srv1)) ->
  forall srv2 : remote, WebDAVFile.close (self1, srv2) = (Return tt, (self1, srv2)).
Proof.
  intros Hclose srv2.
  destruct (WebDAVFile.closed self) eqn:Hc.
  - rewrite close_idempotent in Hclose by assumption.
    inversion Hclose; subst. now apply close_idempotent.
  - apply close_idempotent. now apply (close_releases self self1 srv srv1).
Qed.

Lemma close_twice_witness :
  WebDAVFile.close (abc_handle, ∅) = (Return tt, (abc_closed, abc_stored)) /\
  forall srv2 : remote,
    WebDAVFile.close (abc_closed, srv2) = (Return tt, (abc_closed, srv2)).
Proof.
  split; [vm_compute; reflexivity|].
  apply (close_twice abc_handle abc_closed ∅ abc_stored). vm_compute. reflexivity.
Defined.

(** Once the buffer of a handle is released, no read, write, seek or
    truncate returns a value, and no flush of a writable handle does: each
    raises. *)
Lemma released_handle_raises (self : WebDAVFile.t) :
  BytesIO.closed (WebDAVFile.data self) = true ->
  (forall size, exists e s, WebDAVFile.read size self = (Raise e, s)) /\
  (forall data, exists e s, WebDAVFile.write data self = (Raise e, s)) /\
  (forall offset whence, exists e s, WebDAVFile.seek offset whence self = (Raise e, s)) /\
  (forall size, exists e s, WebDAVFile.truncate size self = (Raise e, s)) /\
  (forall srv, Mode.writing (WebDAVFile.mode self) = true ->
               exists e s, WebDAVFile.flush (self, srv) = (Raise e, s)).
Proof.
  intros Hreleased. destruct self as [pth md [bf cur bcl] p cl]. simpl in Hreleased.
  subst bcl. repeat split.
  - intros size. py_unfold. simpl. destruct (Mode.reading md); simpl; [|eauto].
    destruct (size =? -1); simpl; eauto.
  - intros data. py_unfold. simpl. destruct (Mode.writing md); simpl; eauto.
  - intros offset whence. py_unfold. simpl.
    destruct (whence =? Seek_set); [destruct (offset <? 0); simpl; eauto|].
    destruct (whence =? Seek_current); [simpl; eauto|].
    destruct (whence =? Seek_end); [|simpl; eauto].
    destruct (0 <? offset); simpl; eauto.
  - intros size. py_unfold. simpl. eauto.
  - intros srv Hw. simpl in Hw.
    unfold WebDAVFile.flush, WebDAVFile.on_self. py_unfold. simpl.
    rewrite Hw. simpl. eauto.
Qed.

(** After a close that returned on a handle that was open, every further
    read, write, seek and truncate raises. *)
Theorem closed_handle_raises (self self' : WebDAVFile.t) (srv srv' : remote) :
  WebDAVFile.closed self = false ->
  WebDAVFile.close (self, srv) = (Return tt, (self', srv')) ->
  (forall size, exists e s, WebDAVFile.read size self' = (Raise e, s)) /\
  (forall data, exists e s, WebDAVFile.write data self' = (Raise e, s)) /\
  (forall offset whence, exists e s, WebDAVFile.seek offset whence self' = (Raise e, s)) /\
  (forall size, exists e s, WebDAVFile.truncate size self' = (Raise e, s)).
Proof.
  intros Hopen Hclose.
  destruct (close_releases self self' srv srv' Hopen Hclose) as [_ Hreleased].
  destruct (released_handle_raises self' Hreleased) as (Hr & Hw & Hs & Ht & _).
  auto.
Qed.

(** Closing a writable handle that is open stores its whole buffer as the
    content of its resource, leaves every other resource alone and marks
    the handle closed. *)
Theorem close_stores_buffer (self : WebDAVFile.t) (srv : remote) :
  Mode.writing (WebDAVFile.mode self) = true -> usable self ->
  WebDAVFile.closed self = false ->
  exists self' srv',
    WebDAVFile.close (self, srv) = (Return tt, (self', srv')) /\
    srv' !! WebDAVFile.path self = Some (File (content self)) /\
    (forall q, q <> WebDAVFile.path self -> srv' !! q = srv !! q) /\
    WebDAVFile.closed self' = true.
Proof.
  intros Hw Hopen Hc.
  destruct (close_writable self srv Hw Hopen Hc) as (self' & Hclose & Hclosed & _).
  do 2 eexists. split; [exact Hclose|]. split; [apply lookup_insert_eq|].
  split; [|assumption]. intros q Hq. now apply lookup_insert_ne.
Qed.

Lemma close_stores_buffer_witness :
  Mode.writing (WebDAVFile.mode abc_handle) = true /\ usable abc_handle /\
  WebDAVFile.closed abc_handle = false /\
  exists self' srv',
    WebDAVFile.close (abc_handle, ∅) = (Return tt, (self', srv')) /\
    srv' !! WebDAVFile.path abc_handle = Some (File (content abc_handle)) /\
    (forall q, q <> WebDAVFile.path abc_handle -> srv' !! q = (∅ : remote) !! q) /\
    WebDAVFile.closed self' = true.
Proof.
  repeat (split; [reflexivity|]).
  apply (close_stores_buffer abc_handle ∅); reflexivity.
Defined.

Lemma closed_handle_raises_witness :
  WebDAVFile.closed abc_handle = false /\
  WebDAVFile.close (abc_handle, ∅) = (Return tt, (abc_closed, abc_stored)) /\
  (forall size, exists e s, WebDAVFile.read size abc_closed = (Raise e, s)) /\
  (forall data, exists e s, WebDAVFile.write data abc_closed = (Raise e, s)) /\
  (forall offset whence, exists e s,
      WebDAVFile.seek offset whence abc_closed = (Raise e, s)) /\
  (forall size, exists e s, WebDAVFile.truncate size abc_closed = (Raise e, s)).
Proof.
  split; [reflexivity|]. split; [vm_compute; reflexivity|].
  apply (closed_handle_raises abc_handle abc_closed ∅ abc_stored);
    [reflexivity | vm_compute; reflexivity].
Defined.

Lemma write_at_position_witness :
  Mode.writing (WebDAVFile.mode abc_handle) = true /\ usable abc_handle /\
  in_sync abc_handle /\
  exists self',
    WebDAVFile.write (b "xy") abc_handle = (Return (len (b "xy")), self') /\
    WebDAVFile.pos self' = WebDAVFile.pos abc_handle + len (b "xy") /\
    (b "xy" <> [] ->
     content self'
       = take (Z.to_nat (WebDAVFile.pos abc_handle))
           (content abc_handle
              ++ zeros (WebDAVFile.pos abc_handle - len (content abc_handle)))
         ++ b "xy"
         ++ drop (Z.to_nat (WebDAVFile.pos abc_handle + len (b "xy"))) (content abc_handle)).
Proof.
  repeat (split; [reflexivity|]).
  apply (write_at_position abc_handle (b "xy")); reflexivity.
Defined.

(** * Further properties of the adapter *)

Section AdapterMore.

Variable py_int : string -> option Z.
Variable attributes : string -> node -> raw_info.

Local Abbreviation getinfo := (WebDAVFS.getinfo py_int attributes).
Local Abbreviation preflight := (WebDAVFS.preflight py_int attributes).
Local Abbreviation openbin := (WebDAVFS.openbin py_int attributes).

Lemma getinfo_leaves_server (srv : remote) (p : string) :
  snd (getinfo p srv) = srv.
Proof.
  unfold WebDAVFS.getinfo. destruct (WebDAVFS.in_slash p); [reflexivity|].
  unfold WebDAVFS.isdir, WebDAVFS.client_is_dir, WebDAVFS.client_info,
    try_except, bind, lift, ret, raise.
  destruct (srv !! p) as [[|c]|] eqn:Hnode; [| |reflexivity].
  - destruct (WebDAVFS._create_info_dict py_int (attributes p Dir)) as [d|e];
      [cbv beta iota; rewrite ?Hnode; reflexivity | now destruct e].
  - destruct (WebDAVFS._create_info_dict py_int (attributes p (File c))) as [d|e];
      [cbv beta iota; rewrite ?Hnode; reflexivity | now destruct e].
Qed.

Lemma preflight_leaves_server (srv : remote) (p m : string) :
  snd (preflight p m srv) = srv.
Proof.
  unfold WebDAVFS.preflight, try_except_else, bind, raise, ret.
  pose proof (getinfo_leaves_server srv p) as Hsrv.
  destruct (getinfo p srv) as [[info|e] srv1]. all: simpl in Hsrv; subst srv1.
  - destruct (is_dir info); [reflexivity|]. now destruct (Mode.exclusive m).
  - destruct e; try reflexivity.
    destruct (Mode.reading m); [reflexivity|]. now destruct (Mode.exclusive m).
Qed.

Lemma init_leaves_server (srv : remote) (p m : string) :
  snd (WebDAVFile.__init__ p m srv) = srv.
Proof.
  unfold WebDAVFile.__init__, bind.
  destruct (validate_cases m srv) as [-> | [e ->]]; [|reflexivity].
  destruct (WebDAVFile._get_file_data srv p m BytesIO.new) as [[[]|e] d]; [|reflexivity].
  now destruct (Mode.has "a" m).
Qed.

(** Opening never touches the server, whatever the path, the mode and the
    outcome: a file comes into being only when a handle is flushed. *)
Theorem openbin_leaves_server (srv : remote) (p m : string) :
  snd (openbin p m srv) = srv.
Proof.
  unfold WebDAVFS.openbin, bind.
  destruct (validate_cases m srv) as [-> | [e ->]]; [|reflexivity].
  destruct (validate_bin_cases m srv) as [-> | [e ->]]; [|reflexivity].
  pose proof (preflight_leaves_server srv p m) as Hsrv.
  destruct (preflight p m srv) as [[[]|e] srv1]; simpl in Hsrv; subst srv1; [|reflexivity].
  apply init_leaves_server.
Qed.

(** No handle is ever opened in a mode with ['a']: the download is made and
    then the constructor fails on the method it lacks. *)
Theorem openbin_append_never_opens (srv srv' : remote) (p m : string)
        (f : WebDAVFile.t) :
  Mode.has "a" m = true -> openbin p m srv <> (Return f, srv').
Proof.
  intros Happ. unfold WebDAVFS.openbin, bind.
  destruct (validate_cases m srv) as [-> | [e ->]]; [|discriminate].
  destruct (validate_bin_cases m srv) as [-> | [e ->]]; [|discriminate].
  destruct (preflight p m srv) as [[[]|e] srv1]; [|discriminate].
  now apply init_append_raises.
Qed.

(** The root, and every collection whose attributes normalise, is refused
    with [FileExpected] in every binary mode, the writing ones too. *)
Theorem openbin_directory (srv : remote) (p m : string) :
  Mode.validate_bin m srv = (Return tt, srv) ->
  WebDAVFS.in_slash p = true \/
  (srv !! p = Some Dir /\
   exists d, WebDAVFS._create_info_dict py_int (attributes p Dir) = Return d) ->
  openbin p m srv = (Raise (FileExpected p), srv).
Proof.
  intros Hbin Hdir. pose proof (validate_bin_valid m srv Hbin) as Hvalid.
  unfold WebDAVFS.openbin, bind. rewrite Hvalid, Hbin.
  unfold WebDAVFS.preflight, try_except_else, bind.
  destruct Hdir as [Hroot | (Hnode & d & Hd)].
  - unfold WebDAVFS.getinfo. rewrite Hroot. reflexivity.
  - unfold WebDAVFS.getinfo.
    destruct (WebDAVFS.in_slash p); [reflexivity|].
    unfold WebDAVFS.isdir, WebDAVFS.client_is_dir, WebDAVFS.client_info,
      try_except, bind, lift, ret.
    rewrite Hnode, Hd. cbv beta iota. rewrite ?Hnode. cbv beta iota.
    unfold is_dir. cbn [ns_basic]. rewrite lookup_insert_eq. reflexivity.
Qed.

(** A mode with ['+'] needs the file to be there: on a path at which the
    server holds nothing, ['w+'] and ['x+'] raise [ResourceNotFound] like
    ['r+'] does. *)
Theorem openbin_update_modes_need_file (srv : remote) (p m : string) :
  WebDAVFS.in_slash p = false -> srv !! p = None ->
  Mode.validate_bin m srv = (Return tt, srv) -> Mode.has "+" m = true ->
  openbin p m srv = (Raise (ResourceNotFound p), srv).
Proof.
  intros Hroot Hnone Hbin Hplus.
  apply openbin_missing_reading; try assumption.
  unfold Mode.reading. rewrite Hplus. apply orb_true_r.
Qed.

End AdapterMore.

(** ** Whole-object upload *)

Lemma setbytes_stores (srv : remote) (p : string) (contents : bytes) :
  WebDAVFS.setbytes p contents srv = (Return tt, <[p := File contents]> srv).
Proof.
  unfold WebDAVFS.setbytes, Resource.read_from, BytesIO.read, BytesIO.check_closed,
    bind, zoom, modify. cbn [fst snd BytesIO.closed BytesIO.buf BytesIO.pos].
  change (-1 <? 0) with true. cbn [orb].
  rewrite drop_0, Z.sub_0_r, Z.max_l by (unfold len; lia).
  unfold len. now rewrite Nat2Z.id, firstn_all.
Qed.

Section Upload.

Variable py_int : string -> option Z.
Variable attributes : string -> node -> raw_info.

Local Abbreviation openbin := (WebDAVFS.openbin py_int attributes).

(** The handle [openbin] returns for a file whose attributes normalise. *)
Lemma openbin_file_at (srv : remote) (p m : string) (c : bytes) (d : info_dict) :
  WebDAVFS.in_slash p = false -> srv !! p = Some (File c) ->
  WebDAVFS._create_info_dict py_int (attributes p (File c)) = Return d ->
  Mode.validate_bin m srv = (Return tt, srv) ->
  Mode.exclusive m = false -> Mode.has "a" m = false ->
  openbin p m srv
    = (Return {| WebDAVFile.path := p; WebDAVFile.mode := m;
                 WebDAVFile.data :=
                   {| BytesIO.buf := c; BytesIO.pos := 0; BytesIO.closed := false |};
                 WebDAVFile.pos := 0; WebDAVFile.closed := false |}, srv).
Proof.
  intros Hroot Hfile Hd Hbin Hexcl Happ.
  pose proof (validate_bin_valid m srv Hbin) as Hvalid.
  unfold WebDAVFS.openbin, bind.
  rewrite Hvalid, Hbin, (preflight_file py_int attributes srv p m c d), Hexcl by assumption.
  now apply init_file.
Qed.

(** Opening a file for reading and reading to the end returns the content
    the server holds. *)
Lemma open_read_returns_content (srv : remote) (p : string) (c : bytes) (d : info_dict) :
  WebDAVFS.in_slash p = false -> srv !! p = Some (File c) ->
  WebDAVFS._create_info_dict py_int (attributes p (File c)) = Return d ->
  (let* g := openbin p "r" in
   with_handle g (WebDAVFile.on_self (WebDAVFile.read (-1)))) srv = (Return c, srv).
Proof.
  intros Hroot Hfile Hd. unfold bind.
  rewrite (openbin_file_at srv p "r" c d) by (assumption || reflexivity).
  unfold with_handle, WebDAVFile.on_self, zoom. cbn [fst snd].
  match goal with
  | |- context [WebDAVFile.read (-1) ?g] =>
      destruct (read_all g) as (g' & -> & _); try reflexivity
  end.
Qed.

(** What [setbytes] stores is what a reader gets: after [setbytes(p, B)],
    opening [p] for reading and reading to the end returns exactly [B],
    whatever the server held at [p] before, and no other path has changed. *)
Theorem setbytes_then_read (srv : remote) (p : string) (B : bytes) :
  WebDAVFS.in_slash p = false ->
  (exists d, WebDAVFS._create_info_dict py_int (attributes p (File B)) = Return d) ->
  fst ((WebDAVFS.setbytes p B ;;;
        let* g := openbin p "r" in
        with_handle g (WebDAVFile.on_self (WebDAVFile.read (-1)))) srv) = Return B /\
  forall q, q <> p -> snd (WebDAVFS.setbytes p B srv) !! q = srv !! q.
Proof.
  intros Hroot [d Hd]. split.
  - unfold bind at 1. rewrite setbytes_stores.
    rewrite (open_read_returns_content _ p B d);
      [reflexivity | assumption | apply lookup_insert_eq | assumption].
  - intros q Hq. rewrite setbytes_stores. cbn [snd]. now apply lookup_insert_ne.
Qed.

End Upload.

Lemma setbytes_then_read_witness :
  let srv : remote := {[ "/f.txt" := File (b "hello world") ]} in
  WebDAVFS.in_slash "/f.txt" = false /\
  (exists d, WebDAVFS._create_info_dict decimal_int
               (dav_attributes "/f.txt" (File (b "abc"))) = Return d) /\
  fst ((WebDAVFS.setbytes "/f.txt" (b "abc") ;;;
        let* g := WebDAVFS.openbin decimal_int dav_attributes "/f.txt" "r" in
        with_handle g (WebDAVFile.on_self (WebDAVFile.read (-1)))) srv)
    = Return (b "abc") /\
  forall q, q <> "/f.txt" ->
            snd (WebDAVFS.setbytes "/f.txt" (b "abc") srv) !! q = srv !! q.
Proof.
  split; [reflexivity|]. split; [eexists; vm_compute; reflexivity|].
  apply (setbytes_then_read decimal_int dav_attributes
           {[ "/f.txt" := File (b "hello world") ]} "/f.txt" (b "abc"));
    [reflexivity | eexists; vm_compute; reflexivity].
Defined.

(** ** What normalisation stores *)

Section InfoDictMore.

Variable py_int : string -> option Z.

(** A step of the loop leaves the entries of every other key alone. *)
Lemma classify_other_key (d d' : info_dict) (key key' : string) (val : option string) :
  WebDAVFS.classify py_int d (key', val) = Return d' -> key <> key' ->
  ns_basic d' !! key = ns_basic d !! key /\
  ns_details d' !! key = ns_details d !! key /\
  ns_access d' !! key = ns_access d !! key.
Proof.
  intros Hstep Hne.
  apply classify_one_namespace in Hstep
    as [(_ & -> & -> & ->) | [(_ & [v ->] & -> & ->) | (_ & -> & -> & ->)]];
    rewrite ?lookup_insert_ne by congruence; auto.
Qed.

Lemma classify_all_other_keys (items : raw_info) (d d' : info_dict) (key : string) :
  WebDAVFS.classify_all py_int d items = Return d' -> key ∉ items.*1 ->
  ns_basic d' !! key = ns_basic d !! key /\
  ns_details d' !! key = ns_details d !! key /\
  ns_access d' !! key = ns_access d !! key.
Proof.
  revert d. induction items as [|[key' val] rest IH]; intros d; cbn [WebDAVFS.classify_all].
  - intros Hret _. inversion Hret; subst. auto.
  - destruct (WebDAVFS.classify py_int d (key', val)) as [d1|e] eqn:Hstep; [|discriminate].
    intros Hrest Hnotin. rewrite fmap_cons in Hnotin. cbn [fst] in Hnotin.
    apply not_elem_of_cons in Hnotin as [Hne Hnotin].
    destruct (IH d1 Hrest Hnotin) as (-> & -> & ->).
    now apply (classify_other_key d d1 key key' val).
Qed.

Lemma classify_stores (d d' : info_dict) (key : string) (val : option string) :
  WebDAVFS.classify py_int d (key, val) = Return d' ->
  (key ∈ basics -> ns_basic d' !! key = Some (six_u val)) /\
  (key ∈ details -> Some <$> ns_details d' !! key = Some (stored_detail py_int key val)) /\
  (key ∈ access -> ns_access d' !! key = Some (six_u val)).
Proof.
  pose proof namespaces_disjoint as (Hbd & Hba & Hda).
  rewrite elem_of_disjoint in Hbd, Hba, Hda.
  unfold WebDAVFS.classify, stored_detail. cbv beta iota.
  destruct (bool_decide_reflect (key ∈ basics)) as [Hb|Hnb].
  { returned. cbn [ns_basic ns_details ns_access]. rewrite lookup_insert_eq.
    repeat split; intros; try reflexivity; exfalso; eauto. }
  destruct (bool_decide_reflect (key ∈ details)) as [Hd|Hnd].
  { destruct (String.eqb key "size" && truthy val);
      [destruct val as [s|]; [destruct (py_int s); [|discriminate]|]|];
      returned; cbn [ns_basic ns_details ns_access]; rewrite lookup_insert_eq;
      repeat split; intros; try reflexivity; exfalso; eauto. }
  destruct (bool_decide_reflect (key ∈ access)) as [Ha|Hna]; [|discriminate].
  returned. cbn [ns_basic ns_details ns_access]. rewrite lookup_insert_eq.
  repeat split; intros; try reflexivity; exfalso; eauto.
Qed.

(** Normalisation stores every raw attribute under its key in the
    namespace of that key: names and access attributes as they are, a
    non-empty size as the integer [int] reads, every other detail as it
    is.  (The keys of a mapping are distinct.) *)
Theorem normalise_stores_each_key (info : raw_info) (d : info_dict)
        (key : string) (val : option string) :
  NoDup info.*1 -> (key, val) ∈ info ->
  WebDAVFS._create_info_dict py_int info = Return d ->
  (key ∈ basics -> ns_basic d !! key = Some (six_u val)) /\
  (key ∈ details -> Some <$> ns_details d !! key = Some (stored_detail py_int key val)) /\
  (key ∈ access -> ns_access d !! key = Some (six_u val)).
Proof.
  unfold WebDAVFS._create_info_dict. generalize
    {| ns_basic := {["is_dir" := PBool false]};
       ns_details := {["type" := PInt ResourceType_file]};
       ns_access := ∅ |}.
  induction info as [|[key' val'] rest IH]; intros d0 Hnodup Hin;
    [now apply elem_of_nil in Hin|].
  cbn [WebDAVFS.classify_all].
  destruct (WebDAVFS.classify py_int d0 (key', val')) as [d1|e] eqn:Hstep; [|discriminate].
  intros Hrest. rewrite fmap_cons in Hnodup. cbn [fst] in Hnodup.
  apply NoDup_cons in Hnodup as [Hfresh Hnodup].
  apply elem_of_cons in Hin as [Heq | Hin].
  - inversion Heq; subst key' val'.
    destruct (classify_all_other_keys rest d1 d key Hrest Hfresh) as (-> & -> & ->).
    exact (classify_stores d0 d1 key val Hstep).
  - now apply (IH d1).
Qed.

(** Normalisation returns a dictionary exactly for the mappings whose keys
    all belong to a namespace and whose non-empty sizes are numerals [int]
    accepts; for every other mapping it raises. *)
Theorem normalise_returns_iff (info : raw_info) :
  (exists d, WebDAVFS._create_info_dict py_int info = Return d) <->
  Forall (fun item : string * option string =>
            recognised (fst item) /\
            (fst item = "size" ->
             forall s, snd item = Some s -> s <> "" -> is_Some (py_int s))) info.
Proof.
  split; [|apply recognised_keys_normalise].
  unfold WebDAVFS._create_info_dict. generalize
    {| ns_basic := {["is_dir" := PBool false]};
       ns_details := {["type" := PInt ResourceType_file]};
       ns_access := ∅ |}.
  induction info as [|[key val] rest IH]; intros d0 [d Hret]; [constructor|].
  cbn [WebDAVFS.classify_all] in Hret.
  destruct (WebDAVFS.classify py_int d0 (key, val)) as [d1|e] eqn:Hstep; [|discriminate].
  constructor; [|apply (IH d1); eauto].
  cbn [fst snd]. split.
  - apply classify_one_namespace in Hstep as [(H & _) | [(H & _) | (H & _)]];
      unfold recognised; auto.
  - intros -> s -> Hne. revert Hstep. unfold WebDAVFS.classify. cbv beta iota.
    rewrite bool_decide_eq_false_2 by (intros H; now apply elem_of_singleton in H).
    rewrite bool_decide_eq_true_2 by (unfold details; set_unfold; tauto).
    cbn [String.eqb Ascii.eqb Bool.eqb andb truthy].
    destruct (String.eqb_spec s "") as [|_]; [contradiction|]. cbn [negb].
    destruct (py_int s); [eauto|discriminate].
Qed.

End InfoDictMore.

Lemma normalise_stores_each_key_witness :
  let info := dav_attributes "/f.txt" (File (b "abc")) in
  let d := {| ns_basic := <["name" := PStr "/f.txt"]> {["is_dir" := PBool false]};
              ns_details := <["size" := PInt 3]> {["type" := PInt ResourceType_file]};
              ns_access := ∅ |} in
  NoDup info.*1 /\ ("size", Some "3") ∈ info /\
  WebDAVFS._create_info_dict decimal_int info = Return d /\
  ("size" ∈ basics -> ns_basic d !! "size" = Some (six_u (Some "3"))) /\
  ("size" ∈ details ->
   Some <$> ns_details d !! "size" = Some (stored_detail decimal_int "size" (Some "3"))) /\
  ("size" ∈ access -> ns_access d !! "size" = Some (six_u (Some "3"))).
Proof.
  split; [compute_done|]. split; [compute_done|]. split; [vm_compute; reflexivity|].
  apply (normalise_stores_each_key decimal_int
           (dav_attributes "/f.txt" (File (b "abc")))
           {| ns_basic := <["name" := PStr "/f.txt"]> {["is_dir" := PBool false]};
              ns_details := <["size" := PInt 3]> {["type" := PInt ResourceType_file]};
              ns_access := ∅ |}
           "size" (Some "3"));
    [compute_done | compute_done | vm_compute; reflexivity].
Defined.

(** ** Stat *)

Section Stat.

Variable py_int : string -> option Z.
Variable attributes : string -> node -> raw_info.
Variable client_list : string -> Py remote (list string).
Variable client_clean : string -> Py remote unit.

Local Abbreviation getinfo := (WebDAVFS.getinfo py_int attributes).
Local Abbreviation openbin := (WebDAVFS.openbin py_int attributes).

(** The info of a resource whose attributes normalise to [d]: for a file
    it is [d], which says it is no directory; for a collection it is [d]
    marked as a directory, of type directory.  The server is not changed. *)
Lemma getinfo_node (srv : remote) (p : string) (n : node) (d : info_dict) :
  WebDAVFS.in_slash p = false -> srv !! p = Some n ->
  WebDAVFS._create_info_dict py_int (attributes p n) = Return d ->
  getinfo p srv
    = (Return match n with
              | File _ => d
              | Dir => {| ns_basic := <["is_dir" := PBool true]> (ns_basic d);
                          ns_details := <["type" := PInt ResourceType_directory]>
                                          (ns_details d);
                          ns_access := ns_access d |}
              end, srv).
Proof.
  intros Hroot Hnode Hd. unfold WebDAVFS.getinfo. rewrite Hroot.
  unfold WebDAVFS.isdir, WebDAVFS.client_is_dir, WebDAVFS.client_info,
    try_except, bind, lift, ret.
  rewrite Hnode, Hd. cbv beta iota. rewrite ?Hnode.
  destruct n; cbv beta iota; rewrite ?Hnode; reflexivity.
Qed.

(** [getinfo] of a resource whose attributes normalise returns an info
    that says whether the resource is a collection: [is_dir] holds exactly
    for a collection, whose type is then directory; the access namespace is
    that of the normalised attributes and the server is not changed. *)
Theorem getinfo_reports_kind (srv : remote) (p : string) (n : node) (d : info_dict) :
  WebDAVFS.in_slash p = false -> srv !! p = Some n ->
  WebDAVFS._create_info_dict py_int (attributes p n) = Return d ->
  exists info,
    getinfo p srv = (Return info, srv) /\
    is_dir info = match n with Dir => true | File _ => false end /\
    (n = Dir -> ns_details info !! "type" = Some (PInt ResourceType_directory)) /\
    ns_access info = ns_access d.
Proof.
  intros Hroot Hnode Hd. eexists. split; [now apply (getinfo_node srv p n d)|].
  destruct n as [|c].
  - unfold is_dir. cbn [ns_basic ns_details ns_access].
    rewrite !lookup_insert_eq. auto.
  - split; [exact (create_info_dict_is_file py_int _ d Hd)|].
    split; [discriminate|reflexivity].
Qed.

(** A resource whose raw attributes hold a key of no namespace is out of
    reach: its info cannot be got (the normalisation raises), so it cannot
    be opened in any mode, listed or removed either, and the server stays
    as it is. *)
Theorem unrecognised_attribute_blocks (srv : remote) (p : string) (n : node)
        (key : string) (val : option string) :
  WebDAVFS.in_slash p = false -> srv !! p = Some n ->
  (key, val) ∈ attributes p n -> ~ recognised key ->
  (exists e, getinfo p srv = (Raise e, srv)) /\
  (forall m f srv', openbin p m srv <> (Return f, srv')) /\
  (exists e, WebDAVFS.listdir py_int attributes client_list p srv = (Raise e, srv)) /\
  (exists e, WebDAVFS.remove py_int attributes client_clean p srv = (Raise e, srv)).
Proof.
  intros Hroot Hnode Hin Hnot.
  destruct (unrecognised_key_raises py_int _ key val Hin Hnot) as [e He].
  assert (Hget : exists e', getinfo p srv = (Raise e', srv)
                            /\ forall q, e' <> ResourceNotFound q).
  { unfold WebDAVFS.getinfo. rewrite Hroot.
    unfold WebDAVFS.client_info, try_except, bind, lift. rewrite Hnode, He.
    cbv beta iota.
    assert (He' : exists k, e = KeyError k \/ exists msg, e = ValueError msg).
    { clear -He. revert He. unfold WebDAVFS._create_info_dict. generalize
        {| ns_basic := {["is_dir" := PBool false]};
           ns_details := {["type" := PInt ResourceType_file]};
           ns_access := ∅ |}.
      induction (attributes p n) as [|[k v] rest IH]; intros d0; cbn [WebDAVFS.classify_all];
        [discriminate|].
      destruct (WebDAVFS.classify py_int d0 (k, v)) as [d1|e1] eqn:Hstep; [apply IH|].
      returned. revert Hstep. unfold WebDAVFS.classify. cbv beta iota.
      destruct (bool_decide (k ∈ basics)); [discriminate|].
      destruct (bool_decide (k ∈ details)).
      - destruct (String.eqb k "size" && truthy v); [|discriminate].
        destruct v as [s|]; [|discriminate]. destruct (py_int s); [discriminate|].
        returned. exists "". eauto.
      - destruct (bool_decide (k ∈ access)); [discriminate|]. returned. eauto. }
    destruct He' as [k [-> | [msg ->]]]; eexists; (split; [reflexivity|discriminate]). }
  destruct Hget as (e' & Hget & Hnf).
  split; [eauto|]. split; [|split].
  - intros m f srv'. unfold WebDAVFS.openbin, bind.
    destruct (validate_cases m srv) as [-> | [e0 ->]]; [|discriminate].
    destruct (validate_bin_cases m srv) as [-> | [e0 ->]]; [|discriminate].
    unfold WebDAVFS.preflight, try_except_else, bind. rewrite Hget.
    destruct e'; try discriminate. now specialize (Hnf path).
  - exists e'. unfold WebDAVFS.listdir, bind. now rewrite Hget.
  - exists e'. unfold WebDAVFS.remove, WebDAVFS.exists_, WebDAVFS.client_check, bind, gets.
    rewrite Hnode. cbn [negb]. now rewrite Hget.
Qed.

End Stat.

(** ** The operations on the tree, for every client *)

Section Tree.

Variable py_int : string -> option Z.
Variable attributes : string -> node -> raw_info.
Variable client_list : string -> Py remote (list string).
Variable client_mkdir : string -> Py remote unit.
Variable client_clean : string -> Py remote unit.
Variable client_copy : string -> string -> Py remote unit.
Variable client_move : string -> string -> bool -> Py remote unit.

Local Abbreviation getinfo := (WebDAVFS.getinfo py_int attributes).
Local Abbreviation listdir := (WebDAVFS.listdir py_int attributes client_list).
Local Abbreviation opendir := (WebDAVFS.opendir py_int attributes).
Local Abbreviation makedir := (WebDAVFS.makedir py_int attributes client_mkdir).
Local Abbreviation remove := (WebDAVFS.remove py_int attributes client_clean).
Local Abbreviation removedir := (WebDAVFS.removedir client_list client_clean).
Local Abbreviation copy := (WebDAVFS.copy client_copy).
Local Abbreviation move := (WebDAVFS.move client_move).

Local Abbreviation normalises := (normalises py_int attributes).

(** [listdir] asks the client for a listing only of a collection: a path
    the server does not hold raises [ResourceNotFound], a file raises
    [DirectoryExpected], and neither reaches the client. *)
Theorem listdir_outcome (srv : remote) (p : string) :
  WebDAVFS.in_slash p = false -> normalises srv p ->
  listdir p srv
    = match srv !! p with
      | None => (Raise (ResourceNotFound p), srv)
      | Some (File _) => (Raise (DirectoryExpected p), srv)
      | Some Dir => client_list p srv
      end.
Proof.
  intros Hroot Hnorm. unfold WebDAVFS.listdir, bind.
  destruct (srv !! p) as [n|] eqn:Hnode.
  - destruct (Hnorm n Hnode) as [d Hd].
    rewrite (getinfo_node py_int attributes srv p n d) by assumption.
    destruct n as [|c].
    + unfold is_dir. cbn [ns_basic]. now rewrite lookup_insert_eq.
    + now rewrite (create_info_dict_is_file py_int _ d Hd).
  - now rewrite getinfo_missing.
Qed.

(** [remove] hands to the client's delete only a file: a path the server
    does not hold raises [ResourceNotFound], a collection raises
    [FileExpected], and in both cases the server is left as it is. *)
Theorem remove_outcome (srv : remote) (p : string) :
  WebDAVFS.in_slash p = false -> normalises srv p ->
  remove p srv
    = match srv !! p with
      | None => (Raise (ResourceNotFound p), srv)
      | Some Dir => (Raise (FileExpected p), srv)
      | Some (File _) => client_clean p srv
      end.
Proof.
  intros Hroot Hnorm.
  unfold WebDAVFS.remove, WebDAVFS.exists_, WebDAVFS.client_check, bind, gets.
  destruct (srv !! p) as [n|] eqn:Hnode; [|reflexivity]. cbn [negb].
  destruct (Hnorm n Hnode) as [d Hd].
  rewrite (getinfo_node py_int attributes srv p n d) by assumption.
  destruct n as [|c].
  - unfold is_dir. cbn [ns_basic]. now rewrite lookup_insert_eq.
  - now rewrite (create_info_dict_is_file py_int _ d Hd).
Qed.

(** [removedir] hands to the client's delete only a collection the server
    holds and whose listing is empty.  The root raises [RemoveRootError], a
    path the server does not hold [ResourceNotFound], a file
    [DirectoryExpected], a collection with an entry [DirectoryNotEmpty]. *)
Theorem removedir_outcome (srv : remote) (p : string) :
  removedir p srv
    = if String.eqb p "/" then (Raise RemoveRootError, srv)
      else match srv !! p with
           | None => (Raise (ResourceNotFound p), srv)
           | Some (File _) => (Raise (DirectoryExpected p), srv)
           | Some Dir =>
               match client_list p srv with
               | (Return [], srv') => client_clean p srv'
               | (Return (_ :: _), srv') => (Raise (DirectoryNotEmpty p), srv')
               | (Raise e, srv') => (Raise e, srv')
               end
           end.
Proof.
  unfold WebDAVFS.removedir. destruct (String.eqb p "/"); [reflexivity|].
  unfold WebDAVFS.exists_, WebDAVFS.client_check, WebDAVFS.isdir, WebDAVFS.client_is_dir,
    try_except, bind, gets, raise.
  destruct (srv !! p) as [[|c]|] eqn:Hnode; cbn [negb]; rewrite ?Hnode;
    cbv beta iota; cbn [negb]; cbv beta iota; try reflexivity.
  destruct (client_list p srv) as [[[|x l]|e] srv']; reflexivity.
Qed.

(** [makedir] on a path the server holds: a collection is returned as it
    is when [recreate] is set, without a call to the client; otherwise, and
    for a file in any case, [DirectoryExists] is raised.  The server is
    left as it is. *)
Theorem makedir_on_existing (srv : remote) (p : string) (recreate : bool) (n : node) :
  String.eqb p "/" = false -> WebDAVFS.in_slash p = false ->
  srv !! p = Some n -> normalises srv p ->
  makedir p recreate srv
    = match n, recreate with
      | Dir, true => (Return (WebDAVFS.mkSubFS p), srv)
      | _, _ => (Raise (DirectoryExists p), srv)
      end.
Proof.
  intros Hne Hroot Hnode Hnorm. unfold WebDAVFS.makedir. rewrite Hne.
  unfold WebDAVFS.exists_, WebDAVFS.client_check, WebDAVFS.isdir, WebDAVFS.client_is_dir,
    try_except, bind, gets, raise, ret.
  destruct recreate, n as [|c]; rewrite ?Hnode; cbn [negb]; rewrite ?Hnode; try reflexivity.
  destruct (Hnorm Dir Hnode) as [d Hd].
  unfold WebDAVFS.opendir, bind.
  rewrite (getinfo_node py_int attributes srv p Dir d) by assumption.
  unfold is_dir. cbn [ns_basic]. now rewrite lookup_insert_eq.
Qed.

(** [makedir] on a path the server does not hold calls the client: when
    the client reports that the parent is missing, [ResourceNotFound] is
    raised for the path; when it returns, the result is that of [opendir]
    on the server it left. *)
Theorem makedir_on_missing (srv : remote) (p : string) (recreate : bool) :
  String.eqb p "/" = false -> srv !! p = None ->
  makedir p recreate srv
    = match client_mkdir p srv with
      | (Return _, srv') => opendir p srv'
      | (Raise RemoteParentNotFound, srv') => (Raise (ResourceNotFound p), srv')
      | (Raise e, srv') => (Raise e, srv')
      end.
Proof.
  intros Hne Hnone. unfold WebDAVFS.makedir. rewrite Hne.
  unfold WebDAVFS.exists_, WebDAVFS.client_check, WebDAVFS.isdir, WebDAVFS.client_is_dir,
    try_except, bind, gets, raise, ret.
  destruct recreate; rewrite ?Hnone; cbn [negb]; rewrite ?Hnone;
    destruct (client_mkdir p srv) as [[[]|e] srv']; try reflexivity; now destruct e.
Qed.

(** Without [overwrite], [copy] and [move] onto a path the server holds
    raise [DestinationExists] for that path and do not reach the client:
    the server is left as it is. *)
Theorem copy_move_refuse_existing_destination (srv : remote) (src dst : string) :
  is_Some (srv !! dst) ->
  copy src dst false srv = (Raise (DestinationExists dst), srv) /\
  move src dst false srv = (Raise (DestinationExists dst), srv).
Proof.
  intros [n Hnode].
  unfold WebDAVFS.copy, WebDAVFS.move, WebDAVFS.exists_, WebDAVFS.client_check,
    bind, gets, raise. cbn [negb]. now rewrite Hnode.
Qed.

(** Where the destination check passes, [copy] and [move] are the client's
    call with its two errors translated: a missing source becomes
    [ResourceNotFound] of the source path, a missing parent
    [ResourceNotFound] of the destination path.  Neither error of the
    client ever leaves the adapter. *)
Theorem copy_move_translate_client_errors (srv : remote) (src dst : string)
        (overwrite : bool) :
  overwrite = true \/ srv !! dst = None ->
  copy src dst overwrite srv
    = match client_copy src dst srv with
      | (Raise RemoteResourceNotFound, srv') => (Raise (ResourceNotFound src), srv')
      | (Raise RemoteParentNotFound, srv') => (Raise (ResourceNotFound dst), srv')
      | r => r
      end /\
  move src dst overwrite srv
    = match client_move src dst overwrite srv with
      | (Raise RemoteResourceNotFound, srv') => (Raise (ResourceNotFound src), srv')
      | (Raise RemoteParentNotFound, srv') => (Raise (ResourceNotFound dst), srv')
      | r => r
      end /\
  (forall srv', copy src dst overwrite srv <> (Raise RemoteResourceNotFound, srv') /\
                copy src dst overwrite srv <> (Raise RemoteParentNotFound, srv') /\
                move src dst overwrite srv <> (Raise RemoteResourceNotFound, srv') /\
                move src dst overwrite srv <> (Raise RemoteParentNotFound, srv')).
Proof.
  intros Hguard.
  assert (Hfound : (if negb overwrite then WebDAVFS.exists_ dst else ret false) srv
                   = (Return false, srv)).
  { unfold WebDAVFS.exists_, WebDAVFS.client_check, gets, ret.
    destruct overwrite; cbn [negb]; [reflexivity|].
    destruct Hguard as [Hf | Hn]; [discriminate | now rewrite Hn]. }
  unfold WebDAVFS.copy, WebDAVFS.move, bind. rewrite Hfound.
  unfold try_except, raise.
  destruct (client_copy src dst srv) as [[[]|e1] s1];
    destruct (client_move src dst overwrite srv) as [[[]|e2] s2];
    repeat split; try reflexivity; try discriminate;
    try (destruct e1; reflexivity); try (destruct e2; reflexivity);
    try (destruct e1; discriminate); try (destruct e2; discriminate).
Qed.

End Tree.

(** ** Creating *)

(** Stepping through a sequence. *)
Lemma bind_returns {S A B} (m : Py S A) (k : A -> Py S B) (s s' : S) (a : A) :
  m s = (Return a, s') -> bind m k s = k a s'.
Proof. intros Hm. unfold bind. now rewrite Hm. Qed.

Lemma bind_raises {S A B} (m : Py S A) (k : A -> Py S B) (s s' : S) (e : exn) :
  m s = (Raise e, s') -> bind m k s = (Raise e, s').
Proof. intros Hm. unfold bind. now rewrite Hm. Qed.

(** [truncate(0)] empties the buffer and moves nothing else. *)
Lemma truncate_zero (p m : string) (c : bytes) (cur : nat) (ps : Z) (cl : bool) :
  WebDAVFile.truncate (Some 0)
    {| WebDAVFile.path := p; WebDAVFile.mode := m;
       WebDAVFile.data := {| BytesIO.buf := c; BytesIO.pos := cur; BytesIO.closed := false |};
       WebDAVFile.pos := ps; WebDAVFile.closed := cl |}
  = (Return 0,
     {| WebDAVFile.path := p; WebDAVFile.mode := m;
        WebDAVFile.data := {| BytesIO.buf := []; BytesIO.pos := cur; BytesIO.closed := false |};
        WebDAVFile.pos := ps; WebDAVFile.closed := cl |}).
Proof.
  py_unfold. simpl. destruct c as [|x xs]; reflexivity.
Qed.

Section Create.

Variable py_int : string -> option Z.
Variable attributes : string -> node -> raw_info.

Local Abbreviation create := (WebDAVFS.create py_int attributes).

(** What [create] leaves when it goes on to open the file: the handle is
    emptied and closed, so the path holds a file of length zero. *)
Lemma create_body (srv : remote) (p : string) (c : bytes) :
  (WebDAVFS.with_closing
     {| WebDAVFile.path := p; WebDAVFile.mode := "wb";
        WebDAVFile.data := {| BytesIO.buf := c; BytesIO.pos := 0; BytesIO.closed := false |};
        WebDAVFile.pos := 0; WebDAVFile.closed := false |}
     (WebDAVFile.on_self (WebDAVFile.truncate (Some 0))) ;;; ret true) srv
  = (Return true, <[p := File []]> srv).
Proof.
  unfold bind, WebDAVFS.with_closing, WebDAVFile.on_self, zoom. cbn [fst snd].
  rewrite truncate_zero.
  match goal with
  | |- context [WebDAVFile.close (?f, srv)] =>
      destruct (close_writable f srv) as (f' & -> & _); reflexivity
  end.
Qed.

(** [create] without [wipe] leaves an existing path alone and returns
    false; otherwise it leaves a file of length zero at the path, whether
    nothing was there or a file with content that [wipe] discards, and
    returns true; a collection is refused with [FileExpected]. *)
Theorem create_outcome (srv : remote) (p : string) (wipe : bool) :
  WebDAVFS.in_slash p = false -> normalises py_int attributes srv p ->
  create p wipe srv
    = match srv !! p, wipe with
      | Some _, false => (Return false, srv)
      | Some Dir, true => (Raise (FileExpected p), srv)
      | _, _ => (Return true, <[p := File []]> srv)
      end.
Proof.
  intros Hroot Hnorm. unfold WebDAVFS.create.
  assert (Hfound : (if negb wipe then WebDAVFS.exists_ p else ret false) srv
                   = (Return (negb wipe && bool_decide (is_Some (srv !! p))), srv)).
  { unfold WebDAVFS.exists_, WebDAVFS.client_check, gets, ret.
    destruct wipe; cbn [negb andb]; [reflexivity|].
    destruct (srv !! p); [now rewrite bool_decide_eq_true_2 by eauto|].
    rewrite bool_decide_eq_false_2; [reflexivity | now intros [? ?]]. }
  rewrite (bind_returns _ _ _ _ _ Hfound).
  destruct (srv !! p) as [n|] eqn:Hnode.
  - rewrite bool_decide_eq_true_2 by eauto.
    destruct wipe; cbn [negb andb]; [|now destruct n].
    destruct (Hnorm n Hnode) as [d Hd]. destruct n as [|c].
    + apply bind_raises.
      apply (openbin_directory py_int attributes srv p "wb"); [reflexivity | right; eauto].
    + rewrite (bind_returns _ _ _ _ _
                 (openbin_file_at py_int attributes srv p "wb" c d
                    Hroot Hnode Hd eq_refl eq_refl eq_refl)).
      apply create_body.
  - rewrite bool_decide_eq_false_2 by now intros [? ?].
    rewrite andb_false_r.
    rewrite (bind_returns _ _ _ _ _
               (openbin_missing_creates py_int attributes srv p "wb"
                  Hroot Hnode eq_refl eq_refl eq_refl eq_refl)).
    destruct wipe; exact (create_body srv p []).
Qed.

End Create.

(** ** The properties above on the concrete server *)

Lemma dav_normalises (srv : remote) (p : string) :
  normalises decimal_int dav_attributes srv p.
Proof.
  intros [|c] _; [|apply dav_normalisable].
  apply recognised_keys_normalise. unfold dav_attributes.
  constructor; [|constructor; [|constructor]]; simpl; split.
  - left. compute_done.
  - discriminate.
  - right; left. compute_done.
  - intros _ s Hs. discriminate Hs.
Qed.

Lemma openbin_append_never_opens_witness :
  Mode.has "a" "ab" = true /\
  forall f srv',
    WebDAVFS.openbin decimal_int dav_attributes "/f.txt" "ab" small_tree <> (Return f, srv').
Proof.
  split; [reflexivity|]. intros f srv'.
  apply (openbin_append_never_opens decimal_int dav_attributes small_tree srv' "/f.txt" "ab" f).
  reflexivity.
Defined.

Lemma openbin_directory_witness :
  Mode.validate_bin "wb" small_tree = (Return tt, small_tree) /\
  (WebDAVFS.in_slash "/d" = true \/
   (small_tree !! "/d" = Some Dir /\
    exists d, WebDAVFS._create_info_dict decimal_int (dav_attributes "/d" Dir) = Return d)) /\
  WebDAVFS.openbin decimal_int dav_attributes "/d" "wb" small_tree
    = (Raise (FileExpected "/d"), small_tree).
Proof.
  split; [reflexivity|].
  split; [right; split; [vm_compute; reflexivity | eexists; vm_compute; reflexivity]|].
  apply (openbin_directory decimal_int dav_attributes small_tree "/d" "wb");
    [reflexivity | right; split; [vm_compute; reflexivity | eexists; vm_compute; reflexivity]].
Defined.

Lemma openbin_update_modes_need_file_witness :
  WebDAVFS.in_slash "/missing.txt" = false /\ small_tree !! "/missing.txt" = None /\
  Mode.validate_bin "w+" small_tree = (Return tt, small_tree) /\
  Mode.has "+" "w+" = true /\
  WebDAVFS.openbin decimal_int dav_attributes "/missing.txt" "w+" small_tree
    = (Raise (ResourceNotFound "/missing.txt"), small_tree).
Proof.
  split; [reflexivity|]. split; [vm_compute; reflexivity|].
  split; [reflexivity|]. split; [reflexivity|].
  apply (openbin_update_modes_need_file decimal_int dav_attributes small_tree
           "/missing.txt" "w+");
    [reflexivity | vm_compute; reflexivity | reflexivity | reflexivity].
Defined.

Lemma getinfo_reports_kind_witness :
  WebDAVFS.in_slash "/d" = false /\ small_tree !! "/d" = Some Dir /\
  WebDAVFS._create_info_dict decimal_int (dav_attributes "/d" Dir) = Return d_normalised /\
  exists info,
    WebDAVFS.getinfo decimal_int dav_attributes "/d" small_tree = (Return info, small_tree) /\
    is_dir info = true /\
    (Dir = Dir -> ns_details info !! "type" = Some (PInt ResourceType_directory)) /\
    ns_access info = ns_access d_normalised.
Proof.
  split; [reflexivity|]. split; [vm_compute; reflexivity|].
  split; [vm_compute; reflexivity|].
  apply (getinfo_reports_kind decimal_int dav_attributes small_tree "/d" Dir d_normalised);
    [reflexivity | vm_compute; reflexivity | vm_compute; reflexivity].
Defined.

Lemma unrecognised_attribute_blocks_witness :
  WebDAVFS.in_slash "/f.txt" = false /\
  small_tree !! "/f.txt" = Some (File (b "abc")) /\
  ("getetag", Some "5d8c") ∈ etag_attributes "/f.txt" (File (b "abc")) /\
  ~ recognised "getetag" /\
  (exists e, WebDAVFS.getinfo decimal_int etag_attributes "/f.txt" small_tree
             = (Raise e, small_tree)) /\
  (forall m f srv',
      WebDAVFS.openbin decimal_int etag_attributes "/f.txt" m small_tree
      <> (Return f, srv')) /\
  (exists e, WebDAVFS.listdir decimal_int etag_attributes dav_list "/f.txt" small_tree
             = (Raise e, small_tree)) /\
  (exists e, WebDAVFS.remove decimal_int etag_attributes dav_clean "/f.txt" small_tree
             = (Raise e, small_tree)).
Proof.
  assert (Hin : ("getetag", Some "5d8c") ∈ etag_attributes "/f.txt" (File (b "abc")))
    by (unfold etag_attributes; apply list_elem_of_further, list_elem_of_here).
  assert (Hnot : ~ recognised "getetag")
    by (unfold recognised; intros [H | [H | H]]; revert H; compute_done).
  split; [reflexivity|]. split; [vm_compute; reflexivity|].
  split; [exact Hin|]. split; [exact Hnot|].
  apply (unrecognised_attribute_blocks decimal_int etag_attributes dav_list dav_clean
           small_tree "/f.txt" (File (b "abc")) "getetag" (Some "5d8c"));
    [reflexivity | vm_compute; reflexivity | exact Hin | exact Hnot].
Defined.

Lemma listdir_outcome_witness :
  WebDAVFS.in_slash "/f.txt" = false /\
  normalises decimal_int dav_attributes small_tree "/f.txt" /\
  WebDAVFS.listdir decimal_int dav_attributes dav_list "/f.txt" small_tree
    = match small_tree !! "/f.txt" with
      | None => (Raise (ResourceNotFound "/f.txt"), small_tree)
      | Some (File _) => (Raise (DirectoryExpected "/f.txt"), small_tree)
      | Some Dir => dav_list "/f.txt" small_tree
      end.
Proof.
  split; [reflexivity|]. split; [apply dav_normalises|].
  apply (listdir_outcome decimal_int dav_attributes dav_list small_tree "/f.txt");
    [reflexivity | apply dav_normalises].
Defined.

Lemma remove_outcome_witness :
  WebDAVFS.in_slash "/d" = false /\
  normalises decimal_int dav_attributes small_tree "/d" /\
  WebDAVFS.remove decimal_int dav_attributes dav_clean "/d" small_tree
    = match small_tree !! "/d" with
      | None => (Raise (ResourceNotFound "/d"), small_tree)
      | Some Dir => (Raise (FileExpected "/d"), small_tree)
      | Some (File _) => dav_clean "/d" small_tree
      end.
Proof.
  split; [reflexivity|]. split; [apply dav_normalises|].
  apply (remove_outcome decimal_int dav_attributes dav_clean small_tree "/d");
    [reflexivity | apply dav_normalises].
Defined.

Lemma makedir_on_existing_witness :
  String.eqb "/d" "/" = false /\ WebDAVFS.in_slash "/d" = false /\
  small_tree !! "/d" = Some Dir /\
  normalises decimal_int dav_attributes small_tree "/d" /\
  WebDAVFS.makedir decimal_int dav_attributes dav_mkdir "/d" true small_tree
    = (Return (WebDAVFS.mkSubFS "/d"), small_tree).
Proof.
  split; [reflexivity|]. split; [reflexivity|]. split; [vm_compute; reflexivity|].
  split; [apply dav_normalises|].
  apply (makedir_on_existing decimal_int dav_attributes dav_mkdir small_tree "/d" true Dir);
    [reflexivity | reflexivity | vm_compute; reflexivity | apply dav_normalises].
Defined.

Lemma makedir_on_missing_witness :
  String.eqb "/x/y" "/" = false /\ small_tree !! "/x/y" = None /\
  WebDAVFS.makedir decimal_int dav_attributes dav_mkdir "/x/y" false small_tree
    = match dav_mkdir "/x/y" small_tree with
      | (Return _, srv') => WebDAVFS.opendir decimal_int dav_attributes "/x/y" srv'
      | (Raise RemoteParentNotFound, srv') => (Raise (ResourceNotFound "/x/y"), srv')
      | (Raise e, srv') => (Raise e, srv')
      end.
Proof.
  split; [reflexivity|]. split; [vm_compute; reflexivity|].
  apply (makedir_on_missing decimal_int dav_attributes dav_mkdir small_tree "/x/y" false);
    [reflexivity | vm_compute; reflexivity].
Defined.

Lemma copy_move_refuse_existing_destination_witness :
  is_Some (small_tree !! "/d/g") /\
  WebDAVFS.copy dav_copy "/f.txt" "/d/g" false small_tree
    = (Raise (DestinationExists "/d/g"), small_tree) /\
  WebDAVFS.move dav_move "/f.txt" "/d/g" false small_tree
    = (Raise (DestinationExists "/d/g"), small_tree).
Proof.
  assert (Hdst : is_Some (small_tree !! "/d/g"))
    by (exists (File []); vm_compute; reflexivity).
  split; [exact Hdst|].
  exact (copy_move_refuse_existing_destination dav_copy dav_move small_tree
           "/f.txt" "/d/g" Hdst).
Defined.

Lemma copy_move_translate_client_errors_witness :
  (false = true \/ small_tree !! "/x/y" = None) /\
  WebDAVFS.copy dav_copy "/nothing" "/x/y" false small_tree
    = match dav_copy "/nothing" "/x/y" small_tree with
      | (Raise RemoteResourceNotFound, srv') => (Raise (ResourceNotFound "/nothing"), srv')
      | (Raise RemoteParentNotFound, srv') => (Raise (ResourceNotFound "/x/y"), srv')
      | r => r
      end /\
  WebDAVFS.move dav_move "/nothing" "/x/y" false small_tree
    = match dav_move "/nothing" "/x/y" false small_tree with
      | (Raise RemoteResourceNotFound, srv') => (Raise (ResourceNotFound "/nothing"), srv')
      | (Raise RemoteParentNotFound, srv') => (Raise (ResourceNotFound "/x/y"), srv')
      | r => r
      end /\
  (forall srv',
      WebDAVFS.copy dav_copy "/nothing" "/x/y" false small_tree
        <> (Raise RemoteResourceNotFound, srv') /\
      WebDAVFS.copy dav_copy "/nothing" "/x/y" false small_tree
        <> (Raise RemoteParentNotFound, srv') /\
      WebDAVFS.move dav_move "/nothing" "/x/y" false small_tree
        <> (Raise RemoteResourceNotFound, srv') /\
      WebDAVFS.move dav_move "/nothing" "/x/y" false small_tree
        <> (Raise RemoteParentNotFound, srv')).
Proof.
  split; [right; vm_compute; reflexivity|].
  apply (copy_move_translate_client_errors dav_copy dav_move small_tree
           "/nothing" "/x/y" false).
  right. vm_compute. reflexivity.
Defined.

Lemma create_outcome_witness :
  WebDAVFS.in_slash "/f.txt" = false /\
  normalises decimal_int dav_attributes small_tree "/f.txt" /\
  WebDAVFS.create decimal_int dav_attributes "/f.txt" true small_tree
    = match small_tree !! "/f.txt", true with
      | Some _, false => (Return false, small_tree)
      | Some Dir, true => (Raise (FileExpected "/f.txt"), small_tree)
      | _, _ => (Return true, <["/f.txt" := File []]> small_tree)
      end.
Proof.
  split; [reflexivity|]. split; [apply dav_normalises|].
  apply (create_outcome decimal_int dav_attributes small_tree "/f.txt" true);
    [reflexivity | apply dav_normalises].
Defined.
